(** * VisualProfiler.h: the trace sink (Instrumentor) and the scope timer
      (InstrumentationTimer)

    A shallow embedding of [src/VisualProfiler.h].  The process-wide
    [Instrumentor] singleton, its [std::ofstream] and the files it writes
    are one explicit state, the [world]; every member function is a state
    transformer on it.  [WriteProfile] runs under [m_Lock], so concurrent
    callers are serialised and one call is one atomic transformer; the lock
    itself carries no data and is not part of the state. *)

From Stdlib Require Import ZArith String Ascii List Bool Lia.
From Stdlib Require Import Decimal DecimalFacts DecimalPos DecimalZ DecimalString.
From stdpp Require Import base gmap strings list.

Local Open Scope Z_scope.
Local Open Scope string_scope.

(** ** Machine integers *)

(** [int] is 32 bits, [long long] 64 bits, both two's complement;
    [uint32_t] is 32 bits unsigned.  An arithmetic result is reduced into
    the range of its type. *)
Definition wrap_signed (bits : Z) (z : Z) : Z :=
  (z + 2 ^ (bits - 1)) mod 2 ^ bits - 2 ^ (bits - 1).

Definition wrap_int (z : Z) : Z := wrap_signed 32 z.
Definition wrap_ll (z : Z) : Z := wrap_signed 64 z.
Definition wrap_u32 (z : Z) : Z := z mod 2 ^ 32.

Definition in_int (z : Z) : Prop := - 2 ^ 31 <= z < 2 ^ 31.
Definition in_ll (z : Z) : Prop := - 2 ^ 63 <= z < 2 ^ 63.

(** ** Text *)

(** The double-quote character (code 34) and the single-quote character
    (code 39), the two character literals of the source. *)
Definition dquote : ascii := ascii_of_nat 34.
Definition squote : ascii := ascii_of_nat 39.

(** [std::replace(first, last, old_value, new_value)]: one pass over the
    range, every element equal to [old_value] is overwritten. *)
Fixpoint std_replace (old_value new_value : ascii) (s : string) : string :=
  match s with
  | EmptyString => EmptyString
  | String c rest =>
      String (if Ascii.eqb c old_value then new_value else c)
             (std_replace old_value new_value rest)
  end.

(** The string literals of the source contain double quotes and no single
    quote; they are written here with single quotes and converted once. *)
Definition lit (s : string) : string := std_replace squote dquote s.

(** [operator<<] on an integer with the stream's default flags: decimal
    digits, a leading minus sign for a negative value, no padding. *)
Definition print_int (z : Z) : string := NilZero.string_of_int (Z.to_int z).

(** ** Data *)

(** [struct ProfileResult]. *)
Record ProfileResult := mkProfileResult {
  m_Name : string;
  m_ExecutionStart : Z;
  m_ExecutionEnd : Z;
  m_ThreadID : Z
}.

(** [std::ofstream]: the file it is open on, if any, and whether an error
    flag (failbit or badbit) is set.  Its exception mask is the default one,
    so no stream operation throws. *)
Record ofstream := mkOfstream {
  os_file : option string;
  os_fail : bool
}.

(** [class Instrumentor] without its mutex. *)
Record Instrumentor := mkInstrumentor {
  m_SessionName : string;
  m_OutputStream : ofstream;
  m_ProfileCount : Z;
  m_IsSessionActive : bool
}.

(** The singleton, the contents of the files on disk, and the files that
    cannot be opened for writing.  A key of [disk] stands for one file,
    whatever the paths that name it (see [resolve_op]). *)
Record world := mkWorld {
  sink : Instrumentor;
  disk : gmap string string;
  denied : gset string
}.

(** The member initialisers of [Instrumentor]. *)
Definition Instrumentor_init : Instrumentor :=
  {| m_SessionName := "None";
     m_OutputStream := {| os_file := None; os_fail := false |};
     m_ProfileCount := 0;
     m_IsSessionActive := false |}.

Definition world_init (files : gmap string string) (locked : gset string) : world :=
  {| sink := Instrumentor_init; disk := files; denied := locked |}.

(** ** Commands *)

Definition cmd : Type := world -> world.

Definition seq (c1 c2 : cmd) : cmd := fun w => c2 (c1 w).
Declare Scope cmd_scope.
Delimit Scope cmd_scope with cmd.
Bind Scope cmd_scope with cmd.
Notation "c1 ;; c2" := (seq c1 c2)
  (at level 100, c2 at level 200, right associativity) : cmd_scope.
Local Open Scope cmd_scope.

(** The empty command, for a conditional without an else branch. *)
Definition skip : cmd := fun w => w.

(** Each command takes the state apart once and builds the new state from
    the parts. *)
Definition set_stream (os : ofstream) : cmd :=
  fun '(mkWorld (mkInstrumentor name _ count active) d locked) =>
    mkWorld (mkInstrumentor name os count active) d locked.

Definition set_disk (d : gmap string string) : cmd :=
  fun '(mkWorld s _ locked) => mkWorld s d locked.

Definition set_SessionName (name : string) : cmd :=
  fun '(mkWorld (mkInstrumentor _ os count active) d locked) =>
    mkWorld (mkInstrumentor name os count active) d locked.

Definition set_ProfileCount (n : Z) : cmd :=
  fun '(mkWorld (mkInstrumentor name os _ active) d locked) =>
    mkWorld (mkInstrumentor name os n active) d locked.

Definition set_IsSessionActive (b : bool) : cmd :=
  fun '(mkWorld (mkInstrumentor name os count _) d locked) =>
    mkWorld (mkInstrumentor name os count b) d locked.

(** The text of the file at [p]; a file that does not exist reads empty. *)
Definition file_text (w : world) (p : string) : string :=
  default EmptyString (disk w !! p).

(** *** The stream operations

    An operation of [std::ofstream] acts on the stream object and on the
    files; [with_stream] runs it on [m_OutputStream]. *)

Definition with_stream
    (f : ofstream -> gmap string string -> gset string
         -> ofstream * gmap string string) : cmd :=
  fun '(mkWorld (mkInstrumentor name os count active) d locked) =>
    let '(os', d') := f os d locked in
    mkWorld (mkInstrumentor name os' count active) d' locked.

(** [m_OutputStream << text].  With an error flag set the insertion does
    nothing.  On a stream that is not open the characters cannot be stored
    and badbit is set; inserting no character always succeeds.  Every
    function of the source flushes before it returns, so the characters
    are put in the file at once. *)
Definition ofstream_put (text : string)
    (os : ofstream) (d : gmap string string) (locked : gset string)
  : ofstream * gmap string string :=
  if os_fail os then (os, d)
  else match os_file os with
       | Some p => (os, <[p := default EmptyString (d !! p) ++ text]> d)
       | None =>
           match text with
           | EmptyString => (os, d)
           | String _ _ => ({| os_file := None; os_fail := true |}, d)
           end
       end.

Definition stream_put (text : string) : cmd := with_stream (ofstream_put text).

(** [m_OutputStream.flush()]: nothing is buffered in this model. *)
Definition stream_flush : cmd := fun w => w.

(** [m_OutputStream.open(path)], mode [ios_base::out]: fails, setting
    failbit, when the stream is already open or the file cannot be opened;
    otherwise creates or truncates the file and clears the error flags.
    [path] is here the file that the path given by the caller names. *)
Definition ofstream_open (path : string)
    (os : ofstream) (d : gmap string string) (locked : gset string)
  : ofstream * gmap string string :=
  match os_file os with
  | Some p => ({| os_file := Some p; os_fail := true |}, d)
  | None =>
      if decide (path ∈ locked)
      then ({| os_file := None; os_fail := true |}, d)
      else ({| os_file := Some path; os_fail := false |}, <[path := EmptyString]> d)
  end.

Definition stream_open (path : string) : cmd := with_stream (ofstream_open path).

(** [m_OutputStream.close()]: fails, setting failbit, when the stream is
    not open. *)
Definition ofstream_close
    (os : ofstream) (d : gmap string string) (locked : gset string)
  : ofstream * gmap string string :=
  match os_file os with
  | Some _ => ({| os_file := None; os_fail := os_fail os |}, d)
  | None => ({| os_file := None; os_fail := true |}, d)
  end.

Definition stream_close : cmd := with_stream ofstream_close.

(** *** Instrumentor *)

Definition header_text : string :=
  Eval vm_compute in lit "{'otherData': {},'traceEvents':[".
Definition footer_text : string := "]}".

Definition WriteHeader : cmd :=
  stream_put header_text ;; stream_flush.

Definition WriteFooter : cmd :=
  stream_put footer_text ;; stream_flush.

Definition EndSession : cmd := fun w =>
  if negb (m_IsSessionActive (sink w)) then w
  else (set_IsSessionActive false ;;
        WriteFooter ;;
        stream_close ;;
        set_ProfileCount 0) w.

Definition BeginSession (name filePath : string) : cmd := fun w =>
  ((if m_IsSessionActive (sink w) then EndSession else skip) ;;
   set_IsSessionActive true ;;
   stream_open filePath ;;
   WriteHeader ;;
   set_SessionName name) w.

(** The default argument of [BeginSession]. *)
Definition default_filePath : string := "results.json".

(** [long long] subtraction, [m_ExecutionEnd - m_ExecutionStart]. *)
Definition sub_ll (a b : Z) : Z := wrap_ll (a - b).

Definition lit_cat : string := Eval vm_compute in lit "'cat':'function',".
Definition lit_dur : string := Eval vm_compute in lit "'dur':".
Definition lit_name : string := Eval vm_compute in lit "'name':'".
Definition lit_name_end : string := Eval vm_compute in lit "',".
Definition lit_ph : string := Eval vm_compute in lit "'ph':'X',".
Definition lit_pid : string := Eval vm_compute in lit "'pid':0,".
Definition lit_tid : string := Eval vm_compute in lit "'tid':".
Definition lit_ts : string := Eval vm_compute in lit "'ts':".

(** [WriteProfile], under the lock.  [m_ProfileCount++ > 0] compares the
    value before the increment; the increment of the [int] wraps here where
    C++ leaves the overflow undefined. *)
Definition WriteProfile (result : ProfileResult) : cmd := fun w =>
  let count := m_ProfileCount (sink w) in
  let name := std_replace dquote squote (m_Name result) in
  (set_ProfileCount (wrap_int (count + 1)) ;;
   (if (0 <? count)%Z then stream_put "," else skip) ;;
   stream_put "{" ;;
   stream_put lit_cat ;;
   stream_put lit_dur ;;
   stream_put (print_int (sub_ll (m_ExecutionEnd result) (m_ExecutionStart result))) ;;
   stream_put "," ;;
   stream_put lit_name ;; stream_put name ;; stream_put lit_name_end ;;
   stream_put lit_ph ;;
   stream_put lit_pid ;;
   stream_put lit_tid ;; stream_put (print_int (m_ThreadID result)) ;; stream_put "," ;;
   stream_put lit_ts ;; stream_put (print_int (m_ExecutionStart result)) ;;
   stream_put "}" ;;
   stream_flush) w.

(** [~Instrumentor()]. *)
Definition Instrumentor_dtor : cmd := EndSession.

(** *** InstrumentationTimer *)

(** A [steady_clock::time_point] is a count of nanosecond ticks. *)
Definition time_point : Type := Z.

(** [time_point_cast<microseconds>(t).time_since_epoch().count()]: the
    cast rounds toward zero. *)
Definition to_microseconds (t : time_point) : Z := Z.quot t 1000.

Record InstrumentationTimer := mkTimer {
  m_Stopped : bool;
  m_StartPoint : time_point;
  m_ProfileResult : ProfileResult
}.

(** The constructor; [now] is the reading of the clock. *)
Definition InstrumentationTimer_ctor (name : string) (now : time_point)
  : InstrumentationTimer :=
  {| m_Stopped := false;
     m_StartPoint := now;
     m_ProfileResult := mkProfileResult name 0 0 0 |}.

(** [Stop()]; [now] is the reading of the clock and [thread_hash] the
    [size_t] that [std::hash<std::thread::id>] gives for the calling
    thread, narrowed to [uint32_t] by the assignment. *)
Definition Stop (now : time_point) (thread_hash : Z)
    (st : InstrumentationTimer * world) : InstrumentationTimer * world :=
  let '(t, w) := st in
  let result :=
    {| m_Name := m_Name (m_ProfileResult t);
       m_ExecutionStart := to_microseconds (m_StartPoint t);
       m_ExecutionEnd := to_microseconds now;
       m_ThreadID := wrap_u32 thread_hash |} in
  ({| m_Stopped := true;
      m_StartPoint := m_StartPoint t;
      m_ProfileResult := result |},
   WriteProfile result w).

(** [~InstrumentationTimer()]. *)
Definition InstrumentationTimer_dtor (now : time_point) (thread_hash : Z)
    (st : InstrumentationTimer * world) : InstrumentationTimer * world :=
  let '(t, w) := st in
  if negb (m_Stopped t) then Stop now thread_hash st else st.

(** How control leaves a block. *)
Inductive exit_kind : Type :=
  | FallThrough
  | EarlyReturn
  | Thrown.

(** The code of a block after the declaration of its timer: it acts on the
    timer and on the world and leaves in one of the three ways. *)
Definition block : Type :=
  InstrumentationTimer * world -> exit_kind * (InstrumentationTimer * world).

(** A block that does not name its timer. *)
Definition plain_block (code : world -> exit_kind * world) : block :=
  fun st => let '(k, w) := code (snd st) in (k, (fst st, w)).

(** [PROFILE_SCOPE(name)] at the head of a block.  The timer is an
    automatic object: it is constructed at the declaration and destroyed
    when control leaves the block, whichever way it leaves.  [t_enter] and
    [t_exit] are the clock readings at the two moments. *)
Definition PROFILE_SCOPE (name : string) (t_enter : time_point) (code : block)
    (t_exit : time_point) (thread_hash : Z) (w : world) : exit_kind * world :=
  let '(k, st) := code (InstrumentationTimer_ctor name t_enter, w) in
  (k, snd (InstrumentationTimer_dtor t_exit thread_hash st)).

(** [PROFILE_FUNCTION()]: the label is the signature of the enclosing
    function. *)
Definition PROFILE_FUNCTION (funcsig : string) := PROFILE_SCOPE funcsig.

(** *** Runs of the sink *)

Inductive op : Type :=
  | OBegin (name filePath : string)
  | OEnd
  | OWrite (result : ProfileResult).

Definition run_op (o : op) : cmd :=
  match o with
  | OBegin name filePath => BeginSession name filePath
  | OEnd => EndSession
  | OWrite result => WriteProfile result
  end.

Fixpoint run_ops (ops : list op) (w : world) : world :=
  match ops with
  | [] => w
  | o :: rest => run_ops rest (run_op o w)
  end.

(** [n] calls of [WriteProfile] in a row. *)
Definition write_all (results : list ProfileResult) : cmd :=
  run_ops (map OWrite results).

(** ** The text of one trace event and of a document *)

Definition event_text (r : ProfileResult) : string :=
  "{" ++ lit_cat
      ++ lit_dur ++ print_int (sub_ll (m_ExecutionEnd r) (m_ExecutionStart r)) ++ ","
      ++ lit_name ++ std_replace dquote squote (m_Name r) ++ lit_name_end
      ++ lit_ph
      ++ lit_pid
      ++ lit_tid ++ print_int (m_ThreadID r) ++ ","
      ++ lit_ts ++ print_int (m_ExecutionStart r)
      ++ "}".

(** The texts joined with one comma between neighbours. *)
Fixpoint comma_join (texts : list string) : string :=
  match texts with
  | [] => EmptyString
  | [t] => t
  | t :: rest => t ++ "," ++ comma_join rest
  end.

Definition document (results : list ProfileResult) : string :=
  header_text ++ comma_join (map event_text results) ++ footer_text.

(** ** JSON texts

    What the output is measured against: the grammar of RFC 8259, as a
    pushdown recogniser that reads the text one character at a time.  The
    recogniser also counts the elements of the arrays that are members of
    the top-level object; in a trace document the only such array is
    [traceEvents].  The text is a sequence of bytes; inside a string every
    byte from 0x20 on, the double quote and the backslash apart, stands for
    itself, and the encoding of characters beyond ASCII is not examined. *)
Module Json.

Inductive frame : Type :=
  | InArray
  | InObject.

Inductive mode : Type :=
  | MValue                 (* a value has to start *)
  | MArrayStart            (* after an opening bracket: a value or the end *)
  | MObjectStart           (* after an opening brace: a name or the end *)
  | MName                  (* after a comma in an object: a name *)
  | MColon                 (* after a name: the colon *)
  | MAfter                 (* after a complete value *)
  | MString (name : bool)  (* inside a string *)
  | MEscape (name : bool)  (* after a backslash *)
  | MHex (name : bool) (digits : nat)   (* the four digits after backslash u *)
  | MLiteral (rest : string)          (* inside true, false or null *)
  | MMinus
  | MZero
  | MInt
  | MFracStart
  | MFrac
  | MExpStart
  | MExpSign
  | MExp
  | MError.

Record pda := mkPda {
  pmode : mode;
  pstack : list frame;
  pelems : nat
}.

Definition code (c : ascii) : nat := nat_of_ascii c.

Definition is_ws (c : ascii) : bool :=
  (code c =? 32)%nat || (code c =? 9)%nat || (code c =? 10)%nat || (code c =? 13)%nat.
Definition is_digit (c : ascii) : bool :=
  (48 <=? code c)%nat && (code c <=? 57)%nat.
Definition is_digit19 (c : ascii) : bool :=
  (49 <=? code c)%nat && (code c <=? 57)%nat.
Definition is_hex (c : ascii) : bool :=
  is_digit c
  || ((65 <=? code c)%nat && (code c <=? 70)%nat)
  || ((97 <=? code c)%nat && (code c <=? 102)%nat).
Definition is_control (c : ascii) : bool := (code c <? 32)%nat.
Definition is_exp (c : ascii) : bool := (code c =? 101)%nat || (code c =? 69)%nat.
Definition is_sign (c : ascii) : bool := (code c =? 43)%nat || (code c =? 45)%nat.
Definition backslash : ascii := ascii_of_nat 92.

(** The characters that may follow a backslash, [u] apart. *)
Definition is_escape (c : ascii) : bool :=
  existsb (Nat.eqb (code c)) [34; 92; 47; 98; 102; 110; 114; 116]%nat.

Definition error (st : pda) : pda :=
  {| pmode := MError; pstack := pstack st; pelems := pelems st |}.

Definition goto (m : mode) (st : pda) : pda :=
  {| pmode := m; pstack := pstack st; pelems := pelems st |}.

Definition push (f : frame) (m : mode) (st : pda) : pda :=
  {| pmode := m; pstack := f :: pstack st; pelems := pelems st |}.

(** A value is complete; it is counted when it is an element of an array
    that is a member of the top-level object. *)
Definition complete (st : pda) : pda :=
  {| pmode := MAfter;
     pstack := pstack st;
     pelems := match pstack st with
               | [InArray; InObject] => S (pelems st)
               | _ => pelems st
               end |}.

(** The closing bracket or brace of the frame [f]. *)
Definition close (f : frame) (st : pda) : pda :=
  match pstack st, f with
  | InArray :: below, InArray
  | InObject :: below, InObject =>
      complete {| pmode := MAfter; pstack := below; pelems := pelems st |}
  | _, _ => error st
  end.

Definition start_value (c : ascii) (st : pda) : pda :=
  if is_ws c then st
  else if (code c =? 123)%nat then push InObject MObjectStart st
  else if (code c =? 91)%nat then push InArray MArrayStart st
  else if (code c =? 34)%nat then goto (MString false) st
  else if (code c =? 45)%nat then goto MMinus st
  else if (code c =? 48)%nat then goto MZero st
  else if is_digit19 c then goto MInt st
  else if (code c =? 116)%nat then goto (MLiteral "rue") st
  else if (code c =? 102)%nat then goto (MLiteral "alse") st
  else if (code c =? 110)%nat then goto (MLiteral "ull") st
  else error st.

Definition after (c : ascii) (st : pda) : pda :=
  if is_ws c then st
  else if (code c =? 44)%nat then
    match pstack st with
    | InArray :: _ => goto MValue st
    | InObject :: _ => goto MName st
    | [] => error st
    end
  else if (code c =? 93)%nat then close InArray st
  else if (code c =? 125)%nat then close InObject st
  else error st.

Definition end_string (name : bool) (st : pda) : pda :=
  if name then goto MColon st else complete st.

Definition step (st : pda) (c : ascii) : pda :=
  match pmode st with
  | MValue => start_value c st
  | MArrayStart =>
      if (code c =? 93)%nat then close InArray st else start_value c st
  | MObjectStart =>
      if is_ws c then st
      else if (code c =? 125)%nat then close InObject st
      else if (code c =? 34)%nat then goto (MString true) st
      else error st
  | MName =>
      if is_ws c then st
      else if (code c =? 34)%nat then goto (MString true) st
      else error st
  | MColon =>
      if is_ws c then st
      else if (code c =? 58)%nat then goto MValue st
      else error st
  | MAfter => after c st
  | MString name =>
      if (code c =? 34)%nat then end_string name st
      else if (code c =? 92)%nat then goto (MEscape name) st
      else if is_control c then error st
      else st
  | MEscape name =>
      if is_escape c then goto (MString name) st
      else if (code c =? 117)%nat then goto (MHex name 4) st
      else error st
  | MHex name digits =>
      if is_hex c then
        match digits with
        | S (S k) => goto (MHex name (S k)) st
        | _ => goto (MString name) st
        end
      else error st
  | MLiteral rest =>
      match rest with
      | String c' EmptyString =>
          if Ascii.eqb c c' then complete st else error st
      | String c' rest' =>
          if Ascii.eqb c c' then goto (MLiteral rest') st else error st
      | EmptyString => error st
      end
  | MMinus =>
      if (code c =? 48)%nat then goto MZero st
      else if is_digit19 c then goto MInt st
      else error st
  | MZero =>
      if (code c =? 46)%nat then goto MFracStart st
      else if is_exp c then goto MExpStart st
      else if is_digit c then error st
      else after c (complete st)
  | MInt =>
      if is_digit c then st
      else if (code c =? 46)%nat then goto MFracStart st
      else if is_exp c then goto MExpStart st
      else after c (complete st)
  | MFracStart =>
      if is_digit c then goto MFrac st else error st
  | MFrac =>
      if is_digit c then st
      else if is_exp c then goto MExpStart st
      else after c (complete st)
  | MExpStart =>
      if is_sign c then goto MExpSign st
      else if is_digit c then goto MExp st
      else error st
  | MExpSign =>
      if is_digit c then goto MExp st else error st
  | MExp =>
      if is_digit c then st else after c (complete st)
  | MError => st
  end.

Fixpoint run (text : string) (st : pda) : pda :=
  match text with
  | EmptyString => st
  | String c rest => run rest (step st c)
  end.

Definition start : pda := {| pmode := MValue; pstack := []; pelems := 0 |}.

(** At the end of the text one value has been read and every array and
    object is closed; a number at the top level ends with the text. *)
Definition accepting (st : pda) : bool :=
  match pstack st, pmode st with
  | [], (MAfter | MZero | MInt | MFrac | MExp) => true
  | _, _ => false
  end.

Definition valid (text : string) : bool := accepting (run text start).

(** The number of elements of the arrays that are members of the top-level
    object of a valid text. *)
Definition array_elements (text : string) : option nat :=
  let st := run text start in
  if accepting st then Some (pelems st) else None.

(** The characters that stand for themselves inside a string. *)
Definition plain_char (c : ascii) : bool :=
  negb (code c =? 34)%nat && negb (code c =? 92)%nat && negb (is_control c).

End Json.

(** ** States of the stream and texts of a session *)

(** The stream of [w] is open on [p] and no error flag is set. *)
Definition writing (w : world) (p : string) : Prop :=
  m_OutputStream (sink w) = {| os_file := Some p; os_fail := false |}.

(** [w] with [text] added at the end of the file [p]. *)
Definition append_file (p text : string) (w : world) : world :=
  set_disk (<[p := file_text w p ++ text]> (disk w)) w.

(** With an error flag set nothing reaches a file. *)
Definition failed (w : world) : Prop := os_fail (m_OutputStream (sink w)) = true.

(** The stream of [w] is not open. *)
Definition closed (w : world) : Prop := os_file (m_OutputStream (sink w)) = None.

(** The insertions of [WriteProfile] after the separator. *)
Definition put_event (r : ProfileResult) : cmd :=
  stream_put "{" ;;
  stream_put lit_cat ;;
  stream_put lit_dur ;;
  stream_put (print_int (sub_ll (m_ExecutionEnd r) (m_ExecutionStart r))) ;;
  stream_put "," ;;
  stream_put lit_name ;; stream_put (std_replace dquote squote (m_Name r)) ;;
  stream_put lit_name_end ;;
  stream_put lit_ph ;;
  stream_put lit_pid ;;
  stream_put lit_tid ;; stream_put (print_int (m_ThreadID r)) ;; stream_put "," ;;
  stream_put lit_ts ;; stream_put (print_int (m_ExecutionStart r)) ;;
  stream_put "}" ;;
  stream_flush.

(** The text that a run of [WriteProfile] calls adds to the file: a comma
    goes before a record unless it is the first one. *)
Fixpoint records_text (first : bool) (results : list ProfileResult) : string :=
  match results with
  | [] => EmptyString
  | r :: rest =>
      (if first then EmptyString else ",") ++ event_text r ++ records_text false rest
  end.

(** ** Labels *)

(** Every character of [s] satisfies [P]. *)
Fixpoint all_chars (P : ascii -> bool) (s : string) : bool :=
  match s with
  | EmptyString => true
  | String c rest => P c && all_chars P rest
  end.

(** A character that is neither the backslash nor a control character. *)
Definition label_char (c : ascii) : bool :=
  negb (Json.code c =? 92)%nat && negb (Json.is_control c).

(** A label without backslash and without control character. *)
Definition label_ok (s : string) : bool := all_chars label_char s.

(** The state of the recogniser after the digits of [z]. *)
Definition number_mode (z : Z) : Json.mode :=
  if (z =? 0)%Z then Json.MZero else Json.MInt.

(** The stack of the recogniser between the elements of [traceEvents], and
    inside one of them. *)
Definition in_events : list Json.frame := [Json.InArray; Json.InObject].
Definition in_event : list Json.frame := Json.InObject :: in_events.

(** The recogniser inside an event object, with [n] events counted. *)
Definition inside (m : Json.mode) (n : nat) : Json.pda :=
  {| Json.pmode := m; Json.pstack := in_event; Json.pelems := n |}.

(** The recogniser between events. *)
Definition between (m : Json.mode) (n : nat) : Json.pda :=
  {| Json.pmode := m; Json.pstack := in_events; Json.pelems := n |}.

(** The invariant of the sink: while no session is active the stream is
    closed. *)
Definition sink_inv (w : world) : Prop :=
  m_IsSessionActive (sink w) = false -> closed w.

(** ** Sample inputs *)

Definition fresh_world : world := world_init ∅ ∅.

Definition sample_A : ProfileResult := mkProfileResult "A" 10 25 7.
Definition sample_B : ProfileResult := mkProfileResult "B" 30 31 7.

(** A measurement whose label is one backslash. *)
Definition sample_backslash : ProfileResult :=
  mkProfileResult (String Json.backslash EmptyString) 0 1 0.

(** A path that cannot be opened, and a world in which it is denied. *)
Definition locked_path : string := "locked.json".
Definition locked_world : world := world_init ∅ {[locked_path]}.

(** ** The event object as the specification describes it *)

(** The value of a field: a string or an integer. *)
Inductive field_value : Type :=
  | FString (s : string)
  | FNumber (z : Z).

(** [s] between double quotes. *)
Definition quoted (s : string) : string :=
  String dquote (s ++ String dquote EmptyString).

Definition field_text (f : string * field_value) : string :=
  quoted (fst f) ++ ":" ++
  match snd f with
  | FString s => quoted s
  | FNumber z => print_int z
  end.

(** An object with the fields [fs] in this order, written without spaces. *)
Definition object_text (fs : list (string * field_value)) : string :=
  "{" ++ comma_join (map field_text fs) ++ "}".

(** Follows the words of the specification: the seven fields of an event,
    in key order, [dur] being end minus start. *)
Definition spec_event_fields (r : ProfileResult) : list (string * field_value) :=
  [ ("cat", FString "function");
    ("dur", FNumber (m_ExecutionEnd r - m_ExecutionStart r));
    ("name", FString (std_replace dquote squote (m_Name r)));
    ("ph", FString "X");
    ("pid", FNumber 0);
    ("tid", FNumber (m_ThreadID r));
    ("ts", FNumber (m_ExecutionStart r)) ].

(** ** Decimal numerals *)

(** The value of a decimal digit. *)
Definition digit_value (c : ascii) : option Z :=
  let n := Z.of_nat (nat_of_ascii c) in
  if ((48 <=? n) && (n <=? 57))%Z then Some (n - 48) else None.

(** The digits of [s] read from the left, after the value [acc]. *)
Fixpoint read_digits (s : string) (acc : Z) : option Z :=
  match s with
  | EmptyString => Some acc
  | String c rest =>
      match digit_value c with
      | Some d => read_digits rest (10 * acc + d)
      | None => None
      end
  end.

(** The integer that a decimal numeral denotes: an optional minus sign and
    at least one digit, base ten.  Anything else denotes nothing. *)
Definition decimal_value (s : string) : option Z :=
  match s with
  | EmptyString => None
  | String c rest =>
      if Ascii.eqb c "-"
      then match rest with
           | EmptyString => None
           | String _ _ => option_map Z.opp (read_digits rest 0)
           end
      else read_digits s 0
  end.

(** An object with the given keys and value texts, in this order, written
    without spaces. *)
Definition member_text (m : string * string) : string :=
  quoted (fst m) ++ ":" ++ snd m.

Definition members_text (ms : list (string * string)) : string :=
  "{" ++ comma_join (map member_text ms) ++ "}".

(** ** Paths and files

    The keys of [disk] and the elements of [denied] are files.  A caller
    gives a path, and several paths can name one file; [resolve] stands for
    the file system's map from a path to the file it names.  A run of
    calls with paths is the run of the same calls on the files named. *)
Definition resolve_op (resolve : string -> string) (o : op) : op :=
  match o with
  | OBegin name filePath => OBegin name (resolve filePath)
  | OEnd => OEnd
  | OWrite result => OWrite result
  end.

Definition run_calls (resolve : string -> string) (ops : list op) : cmd :=
  run_ops (map (resolve_op resolve) ops).

(** A sample of such a map: a leading [./] does not change the file that
    a path names. *)
Definition sample_resolve (path : string) : string :=
  match path with
  | String "." (String "/" rest) => rest
  | _ => path
  end.

(** ** Two runs that differ in session names only *)

Inductive same_but_name : op -> op -> Prop :=
  | same_begin (name name' filePath : string) :
      same_but_name (OBegin name filePath) (OBegin name' filePath)
  | same_end : same_but_name OEnd OEnd
  | same_write (result : ProfileResult) :
      same_but_name (OWrite result) (OWrite result).

(** The state with the session name blanked. *)
Definition erase_name (w : world) : world := set_SessionName EmptyString w.

(** The label of the specification's example, with its two double quotes. *)
Definition he_said_hi : string := Eval vm_compute in lit "he said 'hi'".

(** ** Instrumented code as a tree of scopes *)

(** One monitored scope of some thread, as it was executed: its label, the
    clock reading when it was entered, the scopes that were entered and left
    inside it, in order, the clock reading when it was left and the way it
    was left. *)
Local Unset Elimination Schemes.
Inductive scoped : Type :=
  | Scoped (name : string) (t_enter : time_point) (inner : list scoped)
           (t_exit : time_point) (kind : exit_kind).
Local Set Elimination Schemes.

(** The scopes [ts] run one after the other by a thread whose identifier
    hashes to [thread_hash]; each is a block that starts with
    [PROFILE_SCOPE] and then runs its inner scopes. *)
Fixpoint run_scoped (thread_hash : Z) (t : scoped) (w : world) : world :=
  match t with
  | Scoped name t_enter inner t_exit kind =>
      snd (PROFILE_SCOPE name t_enter
             (plain_block
                (fun w0 =>
                   (kind,
                    (fix run_inner (ts : list scoped) (w1 : world) : world :=
                       match ts with
                       | [] => w1
                       | t' :: rest => run_inner rest (run_scoped thread_hash t' w1)
                       end) inner w0)))
             t_exit thread_hash w)
  end.

Fixpoint run_scopes (thread_hash : Z) (ts : list scoped) (w : world) : world :=
  match ts with
  | [] => w
  | t :: rest => run_scopes thread_hash rest (run_scoped thread_hash t w)
  end.

(** The measurement that a scope submits when it is left. *)
Definition scope_result (thread_hash : Z) (t : scoped) : ProfileResult :=
  match t with
  | Scoped name t_enter _ t_exit _ =>
      {| m_Name := name;
         m_ExecutionStart := to_microseconds t_enter;
         m_ExecutionEnd := to_microseconds t_exit;
         m_ThreadID := wrap_u32 thread_hash |}
  end.

(** The measurements of the scopes in the order in which the scopes are
    left: those of the inner scopes first. *)
Fixpoint exit_order (thread_hash : Z) (t : scoped) : list ProfileResult :=
  match t with
  | Scoped _ _ inner _ _ =>
      ((fix inner_order (ts : list scoped) : list ProfileResult :=
         match ts with
         | [] => []
         | t' :: rest => (exit_order thread_hash t' ++ inner_order rest)%list
         end) inner
      ++ [scope_result thread_hash t])%list
  end.

Definition exit_orders (thread_hash : Z) (ts : list scoped) : list ProfileResult :=
  concat (map (exit_order thread_hash) ts).

(** The number of scopes of a tree. *)
Fixpoint scope_count (t : scoped) : nat :=
  match t with
  | Scoped _ _ inner _ _ =>
      S ((fix inner_count (ts : list scoped) : nat :=
            match ts with
            | [] => 0%nat
            | t' :: rest => (scope_count t' + inner_count rest)%nat
            end) inner)
  end.

(** A block whose code calls [Stop] on its timer: [before] runs, then
    [Stop] at the clock reading [t_stop], then [rest]. *)
Definition stopping_block (before : world -> world) (t_stop : time_point)
    (thread_hash : Z) (rest : world -> exit_kind * world) : block :=
  fun st =>
    let st1 := Stop t_stop thread_hash (fst st, before (snd st)) in
    let '(k, w2) := rest (snd st1) in
    (k, (fst st1, w2)).

(** * Properties *)

(** ** Integers and text *)

Lemma wrap_int_id (z : Z) : in_int z -> wrap_int z = z.
Proof.
  unfold in_int, wrap_int, wrap_signed. intros H.
  rewrite Z.mod_small; lia.
Qed.

Lemma wrap_ll_id (z : Z) : in_ll z -> wrap_ll z = z.
Proof.
  unfold in_ll, wrap_ll, wrap_signed. intros H.
  rewrite Z.mod_small; lia.
Qed.

Lemma append_cons (x : ascii) (a b : string) : String x a ++ b = String x (a ++ b).
Proof. reflexivity. Qed.

Lemma append_nil (b : string) : EmptyString ++ b = b.
Proof. reflexivity. Qed.

Lemma append_assoc (a b c : string) : (a ++ b) ++ c = a ++ (b ++ c).
Proof.
  induction a as [|x a IH]; [reflexivity |].
  rewrite !append_cons. now rewrite IH.
Qed.

Lemma append_empty_r (a : string) : a ++ EmptyString = a.
Proof.
  induction a as [|x a IH]; [reflexivity |].
  rewrite append_cons. now rewrite IH.
Qed.

(** ** The stream while it is open and free of errors *)



Lemma stream_put_writing (text : string) (w : world) (p : string) :
  writing w p -> stream_put text w = append_file p text w.
Proof.
  destruct w as [[name [f e] count active] d locked].
  unfold writing. cbn. intros [= -> ->]. reflexivity.
Qed.

Lemma writing_append (p text : string) (w : world) :
  writing w p -> writing (append_file p text w) p.
Proof.
  destruct w as [[name os count active] d locked]. intros H. exact H.
Qed.

Lemma file_text_append (p text : string) (w : world) :
  file_text (append_file p text w) p = file_text w p ++ text.
Proof.
  destruct w as [s d locked]. unfold append_file, file_text, set_disk.
  cbn [disk]. now rewrite lookup_insert_eq.
Qed.

Lemma file_text_append_ne (p q text : string) (w : world) :
  p <> q -> file_text (append_file p text w) q = file_text w q.
Proof.
  intros Hne. destruct w as [s d locked].
  unfold append_file, file_text, set_disk. cbn [disk].
  now rewrite lookup_insert_ne.
Qed.

Lemma append_file_twice (p a b : string) (w : world) :
  append_file p b (append_file p a w) = append_file p (a ++ b) w.
Proof.
  unfold append_file at 1. rewrite file_text_append.
  destruct w as [s d locked].
  unfold append_file, set_disk, file_text. cbn [disk sink denied].
  rewrite insert_insert_eq. rewrite append_assoc. reflexivity.
Qed.

Lemma sink_append_file (p text : string) (w : world) :
  sink (append_file p text w) = sink w.
Proof. now destruct w. Qed.

Lemma denied_append_file (p text : string) (w : world) :
  denied (append_file p text w) = denied w.
Proof. now destruct w. Qed.


Lemma writing_set_ProfileCount (n : Z) (w : world) (p : string) :
  writing w p -> writing (set_ProfileCount n w) p.
Proof. now destruct w as [[name os count active] d locked]. Qed.

Lemma failed_set_ProfileCount (n : Z) (w : world) :
  failed w -> failed (set_ProfileCount n w).
Proof. now destruct w as [[name os count active] d locked]. Qed.

Lemma closed_set_ProfileCount (n : Z) (w : world) :
  closed w -> closed (set_ProfileCount n w).
Proof. now destruct w as [[name os count active] d locked]. Qed.

Lemma failed_set_stream (f : option string) (w : world) :
  failed (set_stream {| os_file := f; os_fail := true |} w).
Proof. now destruct w as [[name os count active] d locked]. Qed.

Lemma seq_apply (c1 c2 : cmd) (w : world) : (c1 ;; c2) w = c2 (c1 w).
Proof. reflexivity. Qed.

Lemma seq_put_writing (text : string) (c : cmd) (w : world) (p : string) :
  writing w p -> (stream_put text ;; c) w = c (append_file p text w).
Proof. intros H. rewrite seq_apply. now rewrite (stream_put_writing _ _ p). Qed.


Lemma stream_put_failed (text : string) (w : world) :
  failed w -> stream_put text w = w.
Proof.
  destruct w as [[name [f e] count active] d locked].
  unfold failed. cbn. now intros ->.
Qed.


Lemma WriteProfile_unfold (r : ProfileResult) (w : world) :
  WriteProfile r w =
  ((if (0 <? m_ProfileCount (sink w))%Z then stream_put "," else skip) ;;
   put_event r) (set_ProfileCount (wrap_int (m_ProfileCount (sink w) + 1)) w).
Proof. unfold WriteProfile, put_event. cbv zeta. rewrite seq_apply. reflexivity. Qed.

Lemma put_event_writing (r : ProfileResult) (w : world) (p : string) :
  writing w p -> put_event r w = append_file p (event_text r) w.
Proof.
  intros Hw. unfold put_event.
  repeat (rewrite (seq_put_writing _ _ _ p); [| by repeat apply writing_append]).
  unfold stream_flush. rewrite !append_file_twice. reflexivity.
Qed.

Lemma put_event_failed (r : ProfileResult) (w : world) :
  failed w -> put_event r w = w.
Proof.
  intros Hf. unfold put_event.
  assert (Hput : forall t (c : cmd), (stream_put t ;; c) w = c w).
  { intros t c. rewrite seq_apply. now rewrite stream_put_failed. }
  now rewrite !Hput.
Qed.

Lemma WriteProfile_writing (r : ProfileResult) (w : world) (p : string) :
  writing w p ->
  WriteProfile r w =
  append_file p ((if (0 <? m_ProfileCount (sink w))%Z then "," else EmptyString)
                   ++ event_text r)
              (set_ProfileCount (wrap_int (m_ProfileCount (sink w) + 1)) w).
Proof.
  intros Hw. rewrite WriteProfile_unfold.
  set (w1 := set_ProfileCount (wrap_int (m_ProfileCount (sink w) + 1)) w).
  assert (Hw1 : writing w1 p) by now apply writing_set_ProfileCount.
  clearbody w1.
  destruct (0 <? m_ProfileCount (sink w))%Z.
  - rewrite (seq_put_writing _ _ _ p); [| done].
    rewrite (put_event_writing _ _ p); [| by apply writing_append].
    now rewrite append_file_twice.
  - rewrite seq_apply. unfold skip. rewrite (put_event_writing _ _ p); [| done].
    now rewrite append_nil.
Qed.

Lemma WriteProfile_failed (r : ProfileResult) (w : world) :
  failed w ->
  WriteProfile r w = set_ProfileCount (wrap_int (m_ProfileCount (sink w) + 1)) w.
Proof.
  intros Hf. rewrite WriteProfile_unfold.
  set (w1 := set_ProfileCount (wrap_int (m_ProfileCount (sink w) + 1)) w).
  assert (Hf1 : failed w1) by now apply failed_set_ProfileCount.
  clearbody w1.
  destruct (0 <? m_ProfileCount (sink w))%Z; rewrite seq_apply; unfold skip.
  - rewrite stream_put_failed; [| done]. now apply put_event_failed.
  - now apply put_event_failed.
Qed.


Lemma stream_put_closed (c : ascii) (text : string) (w : world) :
  closed w -> ~ failed w ->
  stream_put (String c text) w = set_stream {| os_file := None; os_fail := true |} w.
Proof.
  destruct w as [[name [f e] count active] d locked].
  unfold closed, failed. cbn. intros -> Hf. now destruct e.
Qed.

Lemma put_event_closed (r : ProfileResult) (w : world) :
  closed w ->
  put_event r w = set_stream {| os_file := None; os_fail := true |} w.
Proof.
  intros Hc. destruct (os_fail (m_OutputStream (sink w))) eqn:Hf.
  - rewrite put_event_failed; [| done].
    destruct w as [[n [f e] k a] d dn]. unfold closed in Hc. cbn in Hc, Hf.
    subst. reflexivity.
  - set (w2 := set_stream {| os_file := None; os_fail := true |} w).
    assert (Hput : forall t (c : cmd), (stream_put t ;; c) w2 = c w2).
    { intros t c. rewrite seq_apply. rewrite stream_put_failed; [done |].
      apply failed_set_stream. }
    unfold put_event. rewrite seq_apply.
    rewrite stream_put_closed; [| done | unfold failed; congruence].
    fold w2. now rewrite !Hput.
Qed.

Lemma WriteProfile_closed (r : ProfileResult) (w : world) :
  closed w ->
  WriteProfile r w =
  set_stream {| os_file := None; os_fail := true |}
    (set_ProfileCount (wrap_int (m_ProfileCount (sink w) + 1)) w).
Proof.
  intros Hc. rewrite WriteProfile_unfold.
  set (w1 := set_ProfileCount (wrap_int (m_ProfileCount (sink w) + 1)) w).
  assert (Hc1 : closed w1) by now apply closed_set_ProfileCount.
  clearbody w1.
  destruct (0 <? m_ProfileCount (sink w))%Z; rewrite seq_apply; unfold skip.
  - destruct (os_fail (m_OutputStream (sink w1))) eqn:Hf.
    + rewrite stream_put_failed; [| done]. now apply put_event_closed.
    + rewrite stream_put_closed; [| done | unfold failed; congruence].
      rewrite put_event_failed; [done | apply failed_set_stream].
  - now apply put_event_closed.
Qed.

(** From here on [WriteProfile] is used through the three lemmas above. *)
Opaque WriteProfile.

(** ** The recogniser on the pieces of a document *)

Lemma run_app (a b : string) (st : Json.pda) :
  Json.run (a ++ b) st = Json.run b (Json.run a st).
Proof.
  revert st. induction a as [|c a IH]; intros st; [reflexivity |].
  rewrite append_cons. cbn [Json.run]. apply IH.
Qed.

Lemma step_plain_char (c : ascii) (st : Json.pda) (name : bool) :
  Json.plain_char c = true -> Json.pmode st = Json.MString name ->
  Json.step st c = st.
Proof.
  unfold Json.plain_char, Json.step. intros Hc ->.
  apply andb_prop in Hc as [Hc Hctl]. apply andb_prop in Hc as [Hq Hb].
  apply negb_true_iff in Hq. apply negb_true_iff in Hb.
  apply negb_true_iff in Hctl. rewrite Hq, Hb, Hctl. reflexivity.
Qed.

Lemma run_plain (s : string) (st : Json.pda) (name : bool) :
  all_chars Json.plain_char s = true -> Json.pmode st = Json.MString name ->
  Json.run s st = st.
Proof.
  induction s as [|c s IH]; intros Hs Hm; [reflexivity |].
  cbn [all_chars] in Hs. apply andb_prop in Hs as [Hc Hs].
  cbn [Json.run]. rewrite (step_plain_char c st name Hc Hm). now apply IH.
Qed.

Lemma sanitized_char_plain (c : ascii) :
  label_char c = true ->
  Json.plain_char (if Ascii.eqb c dquote then squote else c) = true.
Proof.
  destruct c as [[] [] [] [] [] [] [] []]; vm_compute; intros H;
    first [reflexivity | discriminate H].
Qed.

Lemma sanitized_plain (s : string) :
  label_ok s = true ->
  all_chars Json.plain_char (std_replace dquote squote s) = true.
Proof.
  unfold label_ok. induction s as [|c s IH]; intros H; [reflexivity |].
  cbn [all_chars std_replace] in *. apply andb_prop in H as [Hc Hs].
  rewrite (sanitized_char_plain c Hc). now apply IH.
Qed.

(** *** Numbers *)

Lemma run_digits (d : uint) (st : Json.pda) :
  Json.pmode st = Json.MInt -> Json.run (NilEmpty.string_of_uint d) st = st.
Proof.
  intros Hm. induction d as [|d IH|d IH|d IH|d IH|d IH|d IH|d IH|d IH|d IH|d IH];
    [reflexivity | ..];
    cbn [NilEmpty.string_of_uint Json.run];
    (replace (Json.step st _) with st; [exact IH |]);
    unfold Json.step; rewrite Hm; reflexivity.
Qed.

(** The digits of a positive number do not start with a zero. *)
Lemma to_uint_head (p : positive) :
  match Pos.to_uint p with
  | Nil | D0 _ => False
  | _ => True
  end.
Proof.
  pose proof (DecimalPos.Unsigned.to_of (Pos.to_uint p)) as Hn.
  rewrite DecimalPos.Unsigned.of_to in Hn. cbn [N.to_uint] in Hn.
  pose proof (DecimalPos.Unsigned.to_uint_nonzero p) as Hz.
  pose proof (nzhead_nonzero (Pos.to_uint p)) as Hh.
  unfold unorm in Hn.
  destruct (nzhead (Pos.to_uint p)) eqn:E;
    try (rewrite Hn; exact I).
  - now rewrite Hn in Hz.
  - exfalso. now apply (Hh u).
Qed.

Lemma run_uint_head (d : uint) (st : Json.pda) :
  match d with Nil | D0 _ => False | _ => True end ->
  Json.pmode st = Json.MValue \/ Json.pmode st = Json.MMinus ->
  Json.run (NilEmpty.string_of_uint d) st = Json.goto Json.MInt st.
Proof.
  intros Hd Hm.
  destruct d as [|d|d|d|d|d|d|d|d|d|d]; try contradiction;
    cbn [NilEmpty.string_of_uint Json.run];
    (replace (Json.step st _) with (Json.goto Json.MInt st);
     [now apply run_digits |]);
    unfold Json.step; destruct Hm as [-> | ->]; reflexivity.
Qed.

Lemma run_print_int (z : Z) (st : Json.pda) :
  Json.pmode st = Json.MValue ->
  Json.run (print_int z) st = Json.goto (number_mode z) st.
Proof.
  intros Hm. unfold print_int, number_mode.
  destruct z as [|p|p]; cbn [Z.to_int Z.eqb].
  - cbn. unfold Json.step. rewrite Hm. reflexivity.
  - cbn [NilZero.string_of_int].
    pose proof (to_uint_head p) as Hh.
    assert (E : NilZero.string_of_uint (Pos.to_uint p)
                = NilEmpty.string_of_uint (Pos.to_uint p))
      by (destruct (Pos.to_uint p); [contradiction | reflexivity ..]).
    rewrite E. apply run_uint_head; auto.
  - cbn [NilZero.string_of_int].
    pose proof (to_uint_head p) as Hh.
    assert (E : NilZero.string_of_uint (Pos.to_uint p)
                = NilEmpty.string_of_uint (Pos.to_uint p))
      by (destruct (Pos.to_uint p); [contradiction | reflexivity ..]).
    rewrite E. cbn [Json.run].
    replace (Json.step st _) with (Json.goto Json.MMinus st)
      by (unfold Json.step; rewrite Hm; reflexivity).
    rewrite run_uint_head; auto.
Qed.

(** *** One event *)

Lemma run_open_brace (m : Json.mode) (n : nat) :
  m = Json.MValue \/ m = Json.MArrayStart ->
  Json.run "{" (between m n) = inside Json.MObjectStart n.
Proof. intros [-> | ->]; reflexivity. Qed.

Lemma run_lit_cat (n : nat) :
  Json.run lit_cat (inside Json.MObjectStart n) = inside Json.MName n.
Proof. reflexivity. Qed.

Lemma run_lit_dur (n : nat) :
  Json.run lit_dur (inside Json.MName n) = inside Json.MValue n.
Proof. reflexivity. Qed.

Lemma run_number (z : Z) (n : nat) :
  Json.run (print_int z) (inside Json.MValue n) = inside (number_mode z) n.
Proof. now rewrite run_print_int. Qed.

Lemma run_comma_after_number (z : Z) (n : nat) :
  Json.run "," (inside (number_mode z) n) = inside Json.MName n.
Proof. unfold number_mode. destruct (z =? 0)%Z; reflexivity. Qed.

Lemma run_lit_name (n : nat) :
  Json.run lit_name (inside Json.MName n) = inside (Json.MString false) n.
Proof. reflexivity. Qed.

Lemma run_label (s : string) (n : nat) :
  label_ok s = true ->
  Json.run (std_replace dquote squote s) (inside (Json.MString false) n)
  = inside (Json.MString false) n.
Proof.
  intros H. apply (run_plain _ _ false); [now apply sanitized_plain | reflexivity].
Qed.

Lemma run_lit_name_end (n : nat) :
  Json.run lit_name_end (inside (Json.MString false) n) = inside Json.MName n.
Proof. reflexivity. Qed.

Lemma run_lit_ph (n : nat) :
  Json.run lit_ph (inside Json.MName n) = inside Json.MName n.
Proof. reflexivity. Qed.

Lemma run_lit_pid (n : nat) :
  Json.run lit_pid (inside Json.MName n) = inside Json.MName n.
Proof. reflexivity. Qed.

Lemma run_lit_tid (n : nat) :
  Json.run lit_tid (inside Json.MName n) = inside Json.MValue n.
Proof. reflexivity. Qed.

Lemma run_lit_ts (n : nat) :
  Json.run lit_ts (inside Json.MName n) = inside Json.MValue n.
Proof. reflexivity. Qed.

Lemma run_close_brace (z : Z) (n : nat) :
  Json.run "}" (inside (number_mode z) n) = between Json.MAfter (S n).
Proof. unfold number_mode. destruct (z =? 0)%Z; reflexivity. Qed.

Lemma run_event (r : ProfileResult) (m : Json.mode) (n : nat) :
  label_ok (m_Name r) = true ->
  m = Json.MValue \/ m = Json.MArrayStart ->
  Json.run (event_text r) (between m n) = between Json.MAfter (S n).
Proof.
  intros Hl Hm. unfold event_text. rewrite !run_app.
  rewrite (run_open_brace m n Hm).
  rewrite run_lit_cat, run_lit_dur, run_number, run_comma_after_number.
  rewrite run_lit_name, (run_label _ _ Hl), run_lit_name_end.
  rewrite run_lit_ph, run_lit_pid.
  rewrite run_lit_tid, run_number, run_comma_after_number.
  rewrite run_lit_ts, run_number.
  apply run_close_brace.
Qed.

(** *** A whole document *)

Lemma comma_join_records (rs : list ProfileResult) :
  comma_join (map event_text rs) = records_text true rs.
Proof.
  destruct rs as [|r rs]; [reflexivity |].
  cbn [records_text]. rewrite append_nil.
  revert r. induction rs as [|r' rs IH]; intros r.
  - cbn. now rewrite append_empty_r.
  - cbn [map comma_join records_text] in *. now rewrite IH.
Qed.

Lemma run_records_more (rs : list ProfileResult) (n : nat) :
  Forall (fun r => label_ok (m_Name r) = true) rs ->
  Json.run (records_text false rs) (between Json.MAfter n)
  = between Json.MAfter (n + length rs).
Proof.
  intros H. revert n. induction H as [|r rs Hr _ IH]; intros n.
  - cbn. now rewrite Nat.add_0_r.
  - cbn [records_text length]. rewrite !run_app.
    change (Json.run "," (between Json.MAfter n)) with (between Json.MValue n).
    rewrite (run_event r _ n Hr); [| now left].
    rewrite IH. f_equal. lia.
Qed.

Lemma run_records (rs : list ProfileResult) :
  Forall (fun r => label_ok (m_Name r) = true) rs ->
  Json.run (records_text true rs) (between Json.MArrayStart 0)
  = between (match rs with [] => Json.MArrayStart | _ => Json.MAfter end)
            (length rs).
Proof.
  intros H. destruct H as [|r rs Hr Hrs]; [reflexivity |].
  cbn [records_text length]. rewrite !run_app. cbn [Json.run].
  rewrite (run_event r _ 0 Hr); [| now right].
  now rewrite (run_records_more rs 1 Hrs).
Qed.

Lemma run_header : Json.run header_text Json.start = between Json.MArrayStart 0.
Proof. reflexivity. Qed.

Lemma run_footer (m : Json.mode) (n : nat) :
  m = Json.MAfter \/ m = Json.MArrayStart ->
  Json.run footer_text (between m n)
  = {| Json.pmode := Json.MAfter; Json.pstack := []; Json.pelems := n |}.
Proof. intros [-> | ->]; reflexivity. Qed.

Lemma run_document (rs : list ProfileResult) :
  Forall (fun r => label_ok (m_Name r) = true) rs ->
  Json.run (document rs) Json.start
  = {| Json.pmode := Json.MAfter; Json.pstack := []; Json.pelems := length rs |}.
Proof.
  intros H. unfold document. rewrite !run_app, run_header, comma_join_records.
  rewrite (run_records rs H). apply run_footer. destruct rs; auto.
Qed.

Lemma document_valid (rs : list ProfileResult) :
  Forall (fun r => label_ok (m_Name r) = true) rs ->
  Json.valid (document rs) = true /\
  Json.array_elements (document rs) = Some (length rs).
Proof.
  intros H. unfold Json.valid, Json.array_elements.
  now rewrite (run_document rs H).
Qed.

(** ** Sessions *)

(** The three states of the stream: an error flag is set, it is open and
    free of errors, it is closed and free of errors. *)
Ltac stream_cases w :=
  let name := fresh "name" in let f := fresh "f" in let e := fresh "e" in
  let k := fresh "k" in let a := fresh "a" in let d := fresh "d" in
  let locked := fresh "locked" in
  destruct w as [[name [f e] k a] d locked];
  destruct e;
  [ rewrite WriteProfile_failed; [| reflexivity]
  | destruct f as [f|];
    [ rewrite (WriteProfile_writing _ _ f); [| reflexivity]
    | rewrite WriteProfile_closed; [| reflexivity] ] ].

Lemma WriteProfile_active (r : ProfileResult) (w : world) :
  m_IsSessionActive (sink (WriteProfile r w)) = m_IsSessionActive (sink w).
Proof. stream_cases w; reflexivity. Qed.

Lemma WriteProfile_denied (r : ProfileResult) (w : world) :
  denied (WriteProfile r w) = denied w.
Proof. stream_cases w; reflexivity. Qed.

Lemma WriteProfile_name (r : ProfileResult) (w : world) :
  m_SessionName (sink (WriteProfile r w)) = m_SessionName (sink w).
Proof. stream_cases w; reflexivity. Qed.

Lemma WriteProfile_count (r : ProfileResult) (w : world) :
  m_ProfileCount (sink (WriteProfile r w)) = wrap_int (m_ProfileCount (sink w) + 1).
Proof. stream_cases w; reflexivity. Qed.

(** Without an open stream free of errors no call of [WriteProfile]
    changes a file. *)
Lemma WriteProfile_disk_unchanged (r : ProfileResult) (w : world) :
  failed w \/ closed w -> disk (WriteProfile r w) = disk w.
Proof.
  intros [Hf | Hc].
  - rewrite WriteProfile_failed; [| done].
    now destruct w as [[name os k a] d locked].
  - rewrite WriteProfile_closed; [| done].
    now destruct w as [[name os k a] d locked].
Qed.

Lemma WriteProfile_stays_off (r : ProfileResult) (w : world) :
  failed w \/ closed w -> failed (WriteProfile r w).
Proof.
  intros [Hf | Hc].
  - rewrite WriteProfile_failed; [| done]. now apply failed_set_ProfileCount.
  - rewrite WriteProfile_closed; [| done]. apply failed_set_stream.
Qed.

Lemma write_all_cons (r : ProfileResult) (rs : list ProfileResult) (w : world) :
  write_all (r :: rs) w = write_all rs (WriteProfile r w).
Proof. reflexivity. Qed.

Lemma write_all_off (rs : list ProfileResult) (w : world) :
  failed w \/ closed w ->
  disk (write_all rs w) = disk w /\
  (rs <> [] -> failed (write_all rs w)) /\
  m_IsSessionActive (sink (write_all rs w)) = m_IsSessionActive (sink w).
Proof.
  revert w. induction rs as [|r rs IH]; intros w H; [done |].
  rewrite write_all_cons.
  destruct (IH (WriteProfile r w)) as (Hd & Hf & Ha).
  { left. now apply WriteProfile_stays_off. }
  rewrite Hd, Ha, WriteProfile_active, (WriteProfile_disk_unchanged r w H).
  repeat split. intros _.
  destruct rs as [|r' rs]; [| apply Hf; discriminate].
  unfold write_all. cbn [map run_ops]. now apply WriteProfile_stays_off.
Qed.

(** While the stream is open and free of errors, a run of calls adds the
    records to the file, with a comma before each but the first of the
    session. *)
Lemma write_all_writing (rs : list ProfileResult) (w : world) (p : string) :
  writing w p ->
  (0 <= m_ProfileCount (sink w))%Z ->
  (m_ProfileCount (sink w) + Z.of_nat (length rs) <= 2 ^ 31)%Z ->
  writing (write_all rs w) p /\
  file_text (write_all rs w) p
  = file_text w p ++ records_text (m_ProfileCount (sink w) =? 0)%Z rs /\
  (forall q, q <> p -> file_text (write_all rs w) q = file_text w q) /\
  m_IsSessionActive (sink (write_all rs w)) = m_IsSessionActive (sink w) /\
  m_SessionName (sink (write_all rs w)) = m_SessionName (sink w) /\
  denied (write_all rs w) = denied w.
Proof.
  revert w. induction rs as [|r rs IH]; intros w Hw Hk Hn.
  - cbn [records_text]. rewrite append_empty_r. done.
  - rewrite write_all_cons.
    assert (Hw' : writing (WriteProfile r w) p).
    { rewrite (WriteProfile_writing r w p Hw). apply writing_append.
      now apply writing_set_ProfileCount. }
    assert (Ht : file_text (WriteProfile r w) p
                 = file_text w p
                   ++ (if (0 <? m_ProfileCount (sink w))%Z then "," else EmptyString)
                   ++ event_text r).
    { rewrite (WriteProfile_writing r w p Hw). rewrite file_text_append.
      now destruct w as [[name os k a] d locked]. }
    assert (Hq : forall q, q <> p ->
                 file_text (WriteProfile r w) q = file_text w q).
    { intros q Hne. rewrite (WriteProfile_writing r w p Hw).
      rewrite file_text_append_ne; [| done].
      now destruct w as [[name os k a] d locked]. }
    assert (Hsep : (0 <? m_ProfileCount (sink w))%Z
                   = negb (m_ProfileCount (sink w) =? 0)%Z).
    { destruct (Z.ltb_spec 0 (m_ProfileCount (sink w)));
      destruct (Z.eqb_spec (m_ProfileCount (sink w)) 0); cbn; lia. }
    destruct rs as [|r' rs].
    + unfold write_all. cbn [run_ops map records_text].
      rewrite Ht, Hsep, WriteProfile_active, WriteProfile_name, WriteProfile_denied.
      rewrite append_empty_r.
      repeat split; try done.
      destruct (m_ProfileCount (sink w) =? 0)%Z; reflexivity.
    + cbn [length] in Hn.
      assert (Hc : m_ProfileCount (sink (WriteProfile r w))
                   = (m_ProfileCount (sink w) + 1)%Z).
      { rewrite WriteProfile_count. apply wrap_int_id. unfold in_int. lia. }
      destruct (IH (WriteProfile r w) Hw') as (H1 & H2 & H3 & H4 & H5 & H6).
      { lia. }
      { rewrite Hc. cbn [length]. lia. }
      rewrite H2, H4, H5, H6, Ht, Hc, Hsep.
      rewrite WriteProfile_active, WriteProfile_name, WriteProfile_denied.
      repeat split; try done.
      * replace (m_ProfileCount (sink w) + 1 =? 0)%Z with false
          by (symmetry; apply Z.eqb_neq; lia).
        cbn [records_text]. rewrite !append_assoc.
        destruct (m_ProfileCount (sink w) =? 0)%Z; reflexivity.
      * intros q Hne. rewrite (H3 q Hne). now apply Hq.
Qed.

(** ** Beginning and ending a session *)

Lemma EndSession_inactive (w : world) :
  m_IsSessionActive (sink w) = false -> EndSession w = w.
Proof. unfold EndSession. now intros ->. Qed.

Lemma EndSession_active (name : string) (os : ofstream) (k : Z)
    (d : gmap string string) (locked : gset string) :
  EndSession (mkWorld (mkInstrumentor name os k true) d locked)
  = mkWorld (mkInstrumentor name
               (fst (ofstream_close (fst (ofstream_put footer_text os d locked))
                                    (snd (ofstream_put footer_text os d locked)) locked))
               0 false)
            (snd (ofstream_put footer_text os d locked)) locked.
Proof.
  unfold EndSession. cbn [sink m_IsSessionActive negb].
  unfold WriteFooter, stream_flush. rewrite !seq_apply.
  cbn [set_IsSessionActive].
  unfold stream_put, stream_close, with_stream.
  destruct (ofstream_put footer_text os d locked) as [os1 d1] eqn:E1.
  cbn [fst snd].
  destruct (ofstream_close os1 d1 locked) as [os2 d2] eqn:E2.
  cbn [fst snd set_ProfileCount].
  assert (d2 = d1) as ->; [| reflexivity].
  unfold ofstream_close in E2. destruct (os_file os1); now inversion E2.
Qed.

Lemma EndSession_result_inactive (w : world) :
  m_IsSessionActive (sink (EndSession w)) = false.
Proof.
  destruct w as [[name os k [|]] d locked].
  - now rewrite EndSession_active.
  - now rewrite EndSession_inactive.
Qed.

Lemma EndSession_idempotent (w : world) : EndSession (EndSession w) = EndSession w.
Proof. apply EndSession_inactive, EndSession_result_inactive. Qed.

Lemma EndSession_denied (w : world) : denied (EndSession w) = denied w.
Proof.
  destruct w as [[name os k [|]] d locked].
  - now rewrite EndSession_active.
  - now rewrite EndSession_inactive.
Qed.

Lemma EndSession_closed (w : world) :
  sink_inv w -> closed (EndSession w).
Proof.
  unfold sink_inv. destruct w as [[name [f e] k [|]] d locked]; intros H.
  - rewrite EndSession_active. unfold closed, ofstream_close.
    cbn [sink m_OutputStream].
    now destruct (os_file (fst (ofstream_put footer_text _ d locked))).
  - rewrite EndSession_inactive; [| reflexivity]. now apply H.
Qed.

Lemma EndSession_count (w : world) :
  m_ProfileCount (sink (EndSession w))
  = if m_IsSessionActive (sink w) then 0%Z else m_ProfileCount (sink w).
Proof.
  destruct w as [[name os k [|]] d locked].
  - now rewrite EndSession_active.
  - now rewrite EndSession_inactive.
Qed.

(** Ending a session whose stream is open and free of errors puts the
    footer at the end of its file and closes the stream. *)
Lemma EndSession_writing (w : world) (p : string) :
  m_IsSessionActive (sink w) = true -> writing w p ->
  EndSession w
  = set_ProfileCount 0
      (set_stream {| os_file := None; os_fail := false |}
         (set_IsSessionActive false (append_file p footer_text w))).
Proof.
  destruct w as [[name [f e] k a] d locked]. unfold writing. cbn.
  intros -> [= -> ->]. now rewrite EndSession_active.
Qed.

(** From an inactive sink with a closed stream. *)
Lemma BeginSession_fresh (name path old : string) (e : bool) (k : Z)
    (d : gmap string string) (locked : gset string) :
  BeginSession name path
    (mkWorld (mkInstrumentor old (mkOfstream None e) k false) d locked)
  = if decide (path ∈ locked)
    then mkWorld (mkInstrumentor name (mkOfstream None true) k true) d locked
    else mkWorld (mkInstrumentor name (mkOfstream (Some path) false) k true)
                 (<[path := header_text]> d) locked.
Proof.
  unfold BeginSession. cbn [sink m_IsSessionActive].
  unfold WriteHeader, stream_flush, skip. rewrite !seq_apply.
  cbn [set_IsSessionActive].
  unfold stream_open, stream_put, with_stream, ofstream_open.
  cbn [os_file].
  destruct (decide (path ∈ locked)).
  - reflexivity.
  - unfold ofstream_put. cbn [os_fail os_file set_SessionName].
    rewrite lookup_insert_eq. cbn [default]. rewrite append_nil.
    now rewrite insert_insert_eq.
Qed.

Lemma BeginSession_active (name path : string) (w : world) :
  m_IsSessionActive (sink w) = true ->
  BeginSession name path w = BeginSession name path (EndSession w).
Proof.
  intros Ha. unfold BeginSession.
  rewrite Ha, EndSession_result_inactive.
  rewrite (seq_apply EndSession). rewrite (seq_apply skip). reflexivity.
Qed.

Lemma BeginSession_inactive_or_ended (name path : string) (w : world) :
  BeginSession name path w = BeginSession name path (EndSession w).
Proof.
  destruct (m_IsSessionActive (sink w)) eqn:Ha.
  - now apply BeginSession_active.
  - now rewrite EndSession_inactive.
Qed.

Lemma BeginSession_ended (name path : string) (w : world) :
  sink_inv w ->
  BeginSession name path w
  = if decide (path ∈ denied w)
    then mkWorld (mkInstrumentor name (mkOfstream None true)
                    (m_ProfileCount (sink (EndSession w))) true)
                 (disk (EndSession w)) (denied w)
    else mkWorld (mkInstrumentor name (mkOfstream (Some path) false)
                    (m_ProfileCount (sink (EndSession w))) true)
                 (<[path := header_text]> (disk (EndSession w))) (denied w).
Proof.
  intros Hinv. rewrite BeginSession_inactive_or_ended.
  pose proof (EndSession_closed w Hinv) as Hc.
  pose proof (EndSession_result_inactive w) as Ha.
  rewrite <- (EndSession_denied w).
  destruct (EndSession w) as [[old [f e] k a] d locked].
  unfold closed in Hc. cbn in Hc, Ha. subst f a.
  cbn [sink m_ProfileCount disk denied]. apply BeginSession_fresh.
Qed.

Lemma BeginSession_opened (name path : string) (w : world) :
  sink_inv w -> path ∉ denied w ->
  BeginSession name path w
  = mkWorld (mkInstrumentor name (mkOfstream (Some path) false)
               (m_ProfileCount (sink (EndSession w))) true)
            (<[path := header_text]> (disk (EndSession w))) (denied w).
Proof.
  intros Hinv Hp. rewrite (BeginSession_ended name path w Hinv).
  now rewrite decide_False.
Qed.

Lemma BeginSession_refused (name path : string) (w : world) :
  sink_inv w -> path ∈ denied w ->
  BeginSession name path w
  = mkWorld (mkInstrumentor name (mkOfstream None true)
               (m_ProfileCount (sink (EndSession w))) true)
            (disk (EndSession w)) (denied w).
Proof.
  intros Hinv Hp. rewrite (BeginSession_ended name path w Hinv).
  now rewrite decide_True.
Qed.

(** ** The invariant holds in every state the sink can reach *)

Lemma sink_inv_init (files : gmap string string) (locked : gset string) :
  sink_inv (world_init files locked).
Proof. intros _. reflexivity. Qed.

Lemma sink_inv_WriteProfile (r : ProfileResult) (w : world) :
  sink_inv w -> sink_inv (WriteProfile r w).
Proof.
  unfold sink_inv. rewrite WriteProfile_active. intros H Ha.
  specialize (H Ha). rewrite WriteProfile_closed; [| exact H].
  now destruct w as [[name os k a] d locked].
Qed.

Lemma sink_inv_EndSession (w : world) : sink_inv w -> sink_inv (EndSession w).
Proof. intros H _. now apply EndSession_closed. Qed.

Lemma sink_inv_BeginSession (name path : string) (w : world) :
  sink_inv w -> sink_inv (BeginSession name path w).
Proof.
  intros H. rewrite (BeginSession_ended name path w H).
  destruct (decide (path ∈ denied w)); intros Ha; discriminate Ha.
Qed.

Lemma sink_inv_run_op (o : op) (w : world) : sink_inv w -> sink_inv (run_op o w).
Proof.
  destruct o; cbn [run_op].
  - apply sink_inv_BeginSession.
  - apply sink_inv_EndSession.
  - apply sink_inv_WriteProfile.
Qed.

Lemma sink_inv_run_ops (ops : list op) (w : world) :
  sink_inv w -> sink_inv (run_ops ops w).
Proof.
  revert w. induction ops as [|o ops IH]; intros w H; [exact H |].
  cbn [run_ops]. apply IH. now apply sink_inv_run_op.
Qed.

Lemma sink_inv_write_all (rs : list ProfileResult) (w : world) :
  sink_inv w -> sink_inv (write_all rs w).
Proof. apply sink_inv_run_ops. Qed.

(** * The claims *)

(** ** C2: the document of a session *)

(** C2, as stated, fails: a session with one measurement whose label is a
    backslash leaves a file that is not a JSON text, because the backslash
    reaches the file unescaped. *)
Lemma C2_backslash_label_breaks_document :
  Json.valid
    (file_text
       (EndSession
          (WriteProfile sample_backslash
             (BeginSession "T" default_filePath fresh_world)))
       default_filePath) = false.
Proof. vm_compute. reflexivity. Qed.

(** C2, amended: for a session begun on a sink whose stream is closed and
    whose counter is zero unless a session is active, at a path that can be
    opened, with at most 2^31 calls of WriteProfile whose labels hold
    neither a backslash nor a control character, and then ended: the file is
    the header, the event objects with one comma between neighbours (none
    before the first, none after the last) and the footer; it is a JSON text
    and its traceEvents array has exactly as many elements as there were
    calls. *)
Theorem C2_session_document
    (w : world) (name path : string) (rs : list ProfileResult) :
  sink_inv w ->
  (m_IsSessionActive (sink w) = false -> m_ProfileCount (sink w) = 0%Z) ->
  (path ∉ denied w) ->
  Forall (fun r => label_ok (m_Name r) = true) rs ->
  (Z.of_nat (length rs) <= 2 ^ 31)%Z ->
  let w' := EndSession (write_all rs (BeginSession name path w)) in
  file_text w' path = document rs /\
  document rs = header_text ++ comma_join (map event_text rs) ++ footer_text /\
  Json.valid (document rs) = true /\
  Json.array_elements (document rs) = Some (length rs) /\
  m_IsSessionActive (sink w') = false.
Proof.
  intros Hinv Hk0 Hp Hl Hn w'.
  destruct (document_valid rs Hl) as [Hv He].
  split; [| split; [reflexivity | split; [exact Hv | split;
    [exact He | apply EndSession_result_inactive]]]].
  unfold w'. rewrite (BeginSession_opened name path w Hinv Hp).
  assert (Hk : m_ProfileCount (sink (EndSession w)) = 0%Z).
  { rewrite EndSession_count. destruct (m_IsSessionActive (sink w)); auto. }
  rewrite Hk.
  set (w1 := mkWorld _ _ _).
  assert (Hw1 : writing w1 path) by reflexivity.
  destruct (write_all_writing rs w1 path Hw1) as (Hw2 & Ht & _ & Ha & _).
  { cbn. lia. }
  { cbn. lia. }
  rewrite (EndSession_writing _ path); [| now rewrite Ha | exact Hw2].
  set (w2 := write_all rs w1) in *.
  transitivity (file_text (append_file path footer_text w2) path).
  { now destruct w2 as [[n2 o2 k2 a2] d2 l2]. }
  rewrite file_text_append, Ht.
  unfold w1, file_text at 1. cbn [disk sink m_ProfileCount Z.eqb].
  rewrite lookup_insert_eq. cbn [default].
  unfold document. rewrite comma_join_records. now rewrite append_assoc.
Qed.

Lemma C2_session_document_witness :
  sink_inv fresh_world /\
  (m_IsSessionActive (sink fresh_world) = false ->
   m_ProfileCount (sink fresh_world) = 0%Z) /\
  (default_filePath ∉ denied fresh_world) /\
  Forall (fun r => label_ok (m_Name r) = true) [sample_A; sample_B] /\
  (Z.of_nat (length [sample_A; sample_B]) <= 2 ^ 31)%Z /\
  file_text
    (EndSession
       (write_all [sample_A; sample_B]
          (BeginSession "T" default_filePath fresh_world)))
    default_filePath
  = document [sample_A; sample_B].
Proof.
  assert (H1 : sink_inv fresh_world) by apply sink_inv_init.
  assert (H2 : m_IsSessionActive (sink fresh_world) = false ->
               m_ProfileCount (sink fresh_world) = 0%Z) by reflexivity.
  assert (H3 : default_filePath ∉ denied fresh_world) by apply not_elem_of_empty.
  assert (H4 : Forall (fun r => label_ok (m_Name r) = true) [sample_A; sample_B])
    by (repeat constructor).
  assert (H5 : (Z.of_nat (length [sample_A; sample_B]) <= 2 ^ 31)%Z)
    by (vm_compute; discriminate).
  refine (conj H1 (conj H2 (conj H3 (conj H4 (conj H5 _))))).
  exact (proj1 (C2_session_document fresh_world "T" default_filePath
                  [sample_A; sample_B] H1 H2 H3 H4 H5)).
Defined.

(** ** C3: a write while no session is active *)

(** C3, as stated, fails: the call changes the sink; on a fresh sink the
    counter goes from 0 to 1. *)
Lemma C3_inactive_write_changes_sink :
  m_IsSessionActive (sink fresh_world) = false /\
  m_ProfileCount (sink (WriteProfile sample_A fresh_world)) = 1%Z /\
  WriteProfile sample_A fresh_world <> fresh_world.
Proof.
  assert (H : m_ProfileCount (sink (WriteProfile sample_A fresh_world)) = 1%Z)
    by (vm_compute; reflexivity).
  split; [reflexivity | split; [exact H |]].
  intros E. rewrite E in H. discriminate H.
Qed.

(** C3, amended: in every state that the sink reaches from its initial
    state, a call of WriteProfile made while no session is active leaves
    every file as it is, leaves the session inactive and its name as it is,
    and leaves the stream closed with an error flag set.  The function
    returns nothing and no stream operation throws, so nothing is reported
    to the caller. *)
Theorem C3_inactive_write_leaves_files
    (files : gmap string string) (locked : gset string)
    (ops : list op) (r : ProfileResult) :
  let w := run_ops ops (world_init files locked) in
  m_IsSessionActive (sink w) = false ->
  disk (WriteProfile r w) = disk w /\
  m_IsSessionActive (sink (WriteProfile r w)) = false /\
  m_SessionName (sink (WriteProfile r w)) = m_SessionName (sink w) /\
  denied (WriteProfile r w) = denied w /\
  m_OutputStream (sink (WriteProfile r w)) = {| os_file := None; os_fail := true |}.
Proof.
  intros w Ha.
  assert (Hc : closed w).
  { apply (sink_inv_run_ops ops); [apply sink_inv_init | exact Ha]. }
  rewrite WriteProfile_active, WriteProfile_name, WriteProfile_denied.
  rewrite (WriteProfile_disk_unchanged r w (or_intror Hc)).
  rewrite (WriteProfile_closed r w Hc).
  repeat split; try done.
  now destruct w as [[n o k a] d l].
Qed.

Lemma C3_inactive_write_leaves_files_witness :
  m_IsSessionActive
    (sink (run_ops [OBegin "T" default_filePath; OWrite sample_A; OEnd]
                   fresh_world)) = false /\
  disk (WriteProfile sample_B
          (run_ops [OBegin "T" default_filePath; OWrite sample_A; OEnd]
                   fresh_world))
  = disk (run_ops [OBegin "T" default_filePath; OWrite sample_A; OEnd]
                  fresh_world).
Proof.
  assert (H : m_IsSessionActive
                (sink (run_ops [OBegin "T" default_filePath; OWrite sample_A; OEnd]
                               fresh_world)) = false)
    by (vm_compute; reflexivity).
  refine (conj H _).
  exact (proj1 (C3_inactive_write_leaves_files ∅ ∅
                  [OBegin "T" default_filePath; OWrite sample_A; OEnd]
                  sample_B H)).
Defined.

(** ** C6: the counter at the start of a session *)

Lemma BeginSession_count (name path : string) (w : world) :
  sink_inv w ->
  m_ProfileCount (sink (BeginSession name path w))
  = if m_IsSessionActive (sink w) then 0%Z else m_ProfileCount (sink w).
Proof.
  intros H. rewrite (BeginSession_ended name path w H), <- EndSession_count.
  now destruct (decide (path ∈ denied w)).
Qed.

(** C6 at the failing input: one call of WriteProfile before any session,
    then BeginSession.  The session is active but the counter is 1, the
    first record of the session is written after a comma, and the ended
    document is not a JSON text. *)
Theorem C6_stale_counter_after_BeginSession :
  let w1 := BeginSession "T" default_filePath (WriteProfile sample_A fresh_world) in
  m_IsSessionActive (sink w1) = true /\
  m_ProfileCount (sink w1) = 1%Z /\
  file_text (WriteProfile sample_B w1) default_filePath
  = header_text ++ "," ++ event_text sample_B /\
  Json.valid (file_text (EndSession (WriteProfile sample_B w1)) default_filePath)
  = false.
Proof. vm_compute. repeat split. Qed.

(** ** C7: a destination that cannot be opened *)

Lemma EndSession_failed_disk (w : world) :
  failed w -> disk (EndSession w) = disk w.
Proof.
  destruct w as [[name [f e] k [|]] d locked]; unfold failed;
    cbn [sink m_OutputStream os_fail]; intros ->.
  - rewrite EndSession_active. reflexivity.
  - now rewrite EndSession_inactive.
Qed.

Lemma locked_path_denied : locked_path ∈ denied locked_world.
Proof.
  unfold locked_world, world_init. cbn [denied].
  apply elem_of_singleton. reflexivity.
Qed.

(** C7, as stated, fails: after a BeginSession whose destination cannot be
    opened the session is marked active. *)
Lemma C7_refused_session_is_active :
  locked_path ∈ denied locked_world /\
  m_IsSessionActive (sink (BeginSession "T" locked_path locked_world)) = true.
Proof. split; [exact locked_path_denied | vm_compute; reflexivity]. Qed.

(** C7, amended: when the destination cannot be opened, BeginSession
    returns with the session marked active and the stream closed with an
    error flag set, having changed no file beyond ending a prior session;
    the calls of WriteProfile that follow change no file, and neither does
    the EndSession after them, which makes the session inactive again. *)
Theorem C7_refused_session_writes_nothing
    (w : world) (name path : string) (rs : list ProfileResult) :
  sink_inv w -> path ∈ denied w ->
  let w1 := BeginSession name path w in
  m_IsSessionActive (sink w1) = true /\
  m_OutputStream (sink w1) = {| os_file := None; os_fail := true |} /\
  disk w1 = disk (EndSession w) /\
  disk (write_all rs w1) = disk w1 /\
  disk (EndSession (write_all rs w1)) = disk w1 /\
  m_IsSessionActive (sink (EndSession (write_all rs w1))) = false.
Proof.
  intros Hinv Hp w1. unfold w1.
  rewrite (BeginSession_refused name path w Hinv Hp).
  set (w2 := mkWorld _ _ _).
  assert (Hf : failed w2) by reflexivity.
  destruct (write_all_off rs w2 (or_introl Hf)) as (Hd & Hfs & _).
  assert (Hf' : failed (write_all rs w2)).
  { destruct rs as [|r rs]; [exact Hf | apply Hfs; discriminate]. }
  rewrite (EndSession_failed_disk _ Hf'), Hd.
  repeat split. apply EndSession_result_inactive.
Qed.

Lemma C7_refused_session_writes_nothing_witness :
  sink_inv locked_world /\
  locked_path ∈ denied locked_world /\
  disk (write_all [sample_A; sample_B] (BeginSession "T" locked_path locked_world))
  = disk (BeginSession "T" locked_path locked_world).
Proof.
  assert (H1 : sink_inv locked_world) by apply sink_inv_init.
  assert (H2 : locked_path ∈ denied locked_world) by exact locked_path_denied.
  refine (conj H1 (conj H2 _)).
  exact (proj1 (proj2 (proj2 (proj2
    (C7_refused_session_writes_nothing locked_world "T" locked_path
       [sample_A; sample_B] H1 H2))))).
Defined.

(** ** C5: BeginSession while a session is active *)




(** ** C1 and C4: the scope timer *)

Lemma dtor_not_stopped (now : time_point) (thread_hash : Z)
    (t : InstrumentationTimer) (w : world) :
  m_Stopped t = false ->
  InstrumentationTimer_dtor now thread_hash (t, w) = Stop now thread_hash (t, w).
Proof. unfold InstrumentationTimer_dtor. now intros ->. Qed.

(** C1: a block with PROFILE_SCOPE whose code does not name the timer
    leaves, whichever way control leaves it, the world that one call of
    WriteProfile makes from the world at the end of its code: the
    destructor calls Stop once, the counter of the sink goes up by one, and
    with the stream open and free of errors exactly one event object is
    added to the file. *)
Theorem C1_scope_exit_submits_once
    (name : string) (t_enter t_exit : time_point) (thread_hash : Z)
    (code : world -> exit_kind * world) (w : world) :
  let result :=
    {| m_Name := name;
       m_ExecutionStart := to_microseconds t_enter;
       m_ExecutionEnd := to_microseconds t_exit;
       m_ThreadID := wrap_u32 thread_hash |} in
  let after := PROFILE_SCOPE name t_enter (plain_block code) t_exit thread_hash w in
  let k := m_ProfileCount (sink (snd (code w))) in
  after = (fst (code w), WriteProfile result (snd (code w))) /\
  m_ProfileCount (sink (snd after)) = wrap_int (k + 1) /\
  (forall p, writing (snd (code w)) p ->
     file_text (snd after) p
     = file_text (snd (code w)) p
       ++ (if (0 <? k)%Z then "," else EmptyString) ++ event_text result).
Proof.
  intros result after k.
  assert (E : after = (fst (code w), WriteProfile result (snd (code w)))).
  { unfold after, PROFILE_SCOPE, plain_block. cbn [fst snd].
    destruct (code w) as [x w1]. cbn [fst snd].
    rewrite dtor_not_stopped; [| reflexivity]. reflexivity. }
  split; [exact E |]. rewrite E. cbn [snd].
  split; [apply WriteProfile_count |].
  intros p Hw. rewrite (WriteProfile_writing result _ p Hw).
  rewrite file_text_append. fold k.
  now destruct (snd (code w)) as [[n o c a] d l].
Qed.

Lemma C1_scope_exit_submits_once_witness :
  let w := BeginSession "T" default_filePath fresh_world in
  writing w default_filePath /\
  file_text
    (snd (PROFILE_SCOPE "A" 1000 (plain_block (fun w => (Thrown, w))) 5000 7 w))
    default_filePath
  = header_text ++ event_text (mkProfileResult "A" 1 5 7).
Proof.
  intros w.
  assert (H : writing w default_filePath) by (vm_compute; reflexivity).
  refine (conj H _).
  exact (proj2 (proj2
    (C1_scope_exit_submits_once "A" 1000 5000 7 (fun w => (Thrown, w)) w))
    default_filePath H).
Defined.

(** C4, as stated, fails: Stop does not look at the stopped flag.  Two
    explicit calls on one timer during a session change the sink twice and
    leave two event objects in the document. *)
Lemma C4_second_Stop_submits_again :
  let w := BeginSession "T" default_filePath fresh_world in
  let once := Stop 2000 7 (InstrumentationTimer_ctor "A" 1000, w) in
  let twice := Stop 3000 7 once in
  m_Stopped (fst once) = true /\
  m_ProfileCount (sink (snd once)) = 1%Z /\
  m_ProfileCount (sink (snd twice)) = 2%Z /\
  m_ExecutionEnd (m_ProfileResult (fst once)) = 2%Z /\
  m_ExecutionEnd (m_ProfileResult (fst twice)) = 3%Z /\
  Json.array_elements (file_text (EndSession (snd twice)) default_filePath)
  = Some 2%nat.
Proof. vm_compute. repeat split. Qed.

(** C4, amended: the stopped flag is checked by the destructor, not by
    Stop.  Destroying a stopped timer submits nothing and changes neither
    the timer nor the sink.  Stop itself always submits one measurement,
    also on a stopped timer, and always leaves the flag set: there is no
    way back from Stopped. *)
Theorem C4_destructor_checks_stopped_flag
    (t : InstrumentationTimer) (w : world) (now : time_point) (thread_hash : Z) :
  m_Stopped t = true ->
  InstrumentationTimer_dtor now thread_hash (t, w) = (t, w) /\
  m_Stopped (fst (Stop now thread_hash (t, w))) = true /\
  snd (Stop now thread_hash (t, w))
  = WriteProfile
      {| m_Name := m_Name (m_ProfileResult t);
         m_ExecutionStart := to_microseconds (m_StartPoint t);
         m_ExecutionEnd := to_microseconds now;
         m_ThreadID := wrap_u32 thread_hash |} w.
Proof.
  intros Hs. unfold InstrumentationTimer_dtor. rewrite Hs. cbn [negb].
  repeat split.
Qed.

Lemma C4_destructor_checks_stopped_flag_witness :
  let st := Stop 2000 7 (InstrumentationTimer_ctor "A" 1000, fresh_world) in
  m_Stopped (fst st) = true /\
  InstrumentationTimer_dtor 3000 7 (fst st, snd st) = (fst st, snd st).
Proof.
  intros st.
  assert (H : m_Stopped (fst st) = true) by reflexivity.
  refine (conj H _).
  exact (proj1 (C4_destructor_checks_stopped_flag (fst st) (snd st) 3000 7 H)).
Defined.

(** ** C8: the fields of an event object *)

Lemma field_string_append (k s rest : string) :
  field_text (k, FString s) ++ rest
  = quoted k ++ ":" ++ String dquote (s ++ String dquote rest).
Proof.
  unfold field_text, quoted. cbn [fst snd].
  now rewrite !append_assoc, !append_cons, !append_assoc.
Qed.

Lemma field_number_append (k : string) (z : Z) (rest : string) :
  field_text (k, FNumber z) ++ rest = quoted k ++ ":" ++ print_int z ++ rest.
Proof. unfold field_text. cbn [fst snd]. now rewrite !append_assoc. Qed.

Lemma event_text_fields (r : ProfileResult) :
  in_ll (m_ExecutionEnd r - m_ExecutionStart r) ->
  event_text r = object_text (spec_event_fields r).
Proof.
  intros Hd. unfold event_text, sub_ll. rewrite (wrap_ll_id _ Hd).
  unfold object_text, spec_event_fields.
  cbn [map comma_join]. rewrite !append_assoc.
  rewrite !field_string_append, !field_number_append.
  reflexivity.
Qed.

Lemma read_digits_acc (d : uint) (acc : positive) :
  read_digits (NilEmpty.string_of_uint d) (Z.pos acc)
  = Some (Z.pos (Pos.of_uint_acc d acc)).
Proof.
  revert acc.
  induction d as [|d IH|d IH|d IH|d IH|d IH|d IH|d IH|d IH|d IH|d IH];
    intros acc; [reflexivity | ..];
    cbn [NilEmpty.string_of_uint read_digits Pos.of_uint_acc];
    (change (digit_value _) with (Some 0%Z)
     || change (digit_value _) with (Some 1%Z)
     || change (digit_value _) with (Some 2%Z)
     || change (digit_value _) with (Some 3%Z)
     || change (digit_value _) with (Some 4%Z)
     || change (digit_value _) with (Some 5%Z)
     || change (digit_value _) with (Some 6%Z)
     || change (digit_value _) with (Some 7%Z)
     || change (digit_value _) with (Some 8%Z)
     || change (digit_value _) with (Some 9%Z));
    cbv iota; rewrite <- IH; f_equal; lia.
Qed.

Lemma read_digits_uint (d : uint) :
  read_digits (NilEmpty.string_of_uint d) 0 = Some (Z.of_N (Pos.of_uint d)).
Proof.
  induction d as [|d IH|d IH|d IH|d IH|d IH|d IH|d IH|d IH|d IH|d IH];
    [reflexivity | exact IH | ..];
    cbn [NilEmpty.string_of_uint read_digits Pos.of_uint Z.of_N];
    rewrite <- read_digits_acc; reflexivity.
Qed.

(** What [operator<<] prints for an integer is a decimal numeral of that
    integer. *)
Lemma decimal_value_print_int (z : Z) : decimal_value (print_int z) = Some z.
Proof.
  unfold print_int. destruct z as [|p|p]; [reflexivity | |];
    cbn [Z.to_int NilZero.string_of_int];
    pose proof (to_uint_head p) as Hh;
    pose proof (read_digits_uint (Pos.to_uint p)) as Hr;
    rewrite DecimalPos.Unsigned.of_to in Hr; cbn [Z.of_N] in Hr.
  - destruct (Pos.to_uint p) eqn:E; try contradiction; exact Hr.
  - destruct (Pos.to_uint p) eqn:E; try contradiction;
      unfold NilZero.string_of_uint; cbn [decimal_value Ascii.eqb Bool.eqb];
      cbn [NilEmpty.string_of_uint]; cbn [NilEmpty.string_of_uint] in Hr;
      rewrite Hr; reflexivity.
Qed.

Lemma print_int_valid (z : Z) : Json.valid (print_int z) = true.
Proof.
  unfold Json.valid. rewrite run_print_int; [| reflexivity].
  unfold number_mode. now destruct (z =? 0)%Z.
Qed.

(** C8: with the stream open and free of errors, a call of WriteProfile
    adds to the file, after the separator, one object that has exactly the
    seven fields cat, dur, name, ph, pid, tid, ts in this order: cat is
    the string function; dur is a decimal numeral, well formed as a JSON
    number, of the difference of the end and start timestamps (when the
    difference fits a long long); name is the label after the replacement,
    between quotes; ph is the string X; pid is 0; tid is such a numeral of
    the thread identifier and ts one of the start timestamp. *)
Theorem C8_event_fields (r : ProfileResult) (w : world) (p : string) :
  in_ll (m_ExecutionEnd r - m_ExecutionStart r) ->
  writing w p ->
  exists dur tid ts : string,
    decimal_value dur = Some (m_ExecutionEnd r - m_ExecutionStart r)%Z /\
    decimal_value tid = Some (m_ThreadID r) /\
    decimal_value ts = Some (m_ExecutionStart r) /\
    Json.valid dur = true /\ Json.valid tid = true /\ Json.valid ts = true /\
    file_text (WriteProfile r w) p
    = file_text w p
      ++ (if (0 <? m_ProfileCount (sink w))%Z then "," else EmptyString)
      ++ members_text
           [ ("cat", quoted "function");
             ("dur", dur);
             ("name", quoted (std_replace dquote squote (m_Name r)));
             ("ph", quoted "X");
             ("pid", "0");
             ("tid", tid);
             ("ts", ts) ].
Proof.
  intros Hd Hw.
  exists (print_int (m_ExecutionEnd r - m_ExecutionStart r)),
         (print_int (m_ThreadID r)), (print_int (m_ExecutionStart r)).
  rewrite !decimal_value_print_int, !print_int_valid.
  repeat split.
  rewrite (WriteProfile_writing r w p Hw), file_text_append.
  rewrite (event_text_fields r Hd).
  now destruct w as [[n o k a] d l].
Qed.

Lemma C8_event_fields_witness :
  let w := BeginSession "T" default_filePath fresh_world in
  in_ll (m_ExecutionEnd sample_A - m_ExecutionStart sample_A) /\
  writing w default_filePath /\
  exists dur tid ts : string,
    decimal_value dur = Some 15%Z /\
    decimal_value tid = Some 7%Z /\
    decimal_value ts = Some 10%Z /\
    Json.valid dur = true /\ Json.valid tid = true /\ Json.valid ts = true /\
    file_text (WriteProfile sample_A w) default_filePath
    = header_text
      ++ members_text
           [ ("cat", quoted "function");
             ("dur", dur);
             ("name", quoted "A");
             ("ph", quoted "X");
             ("pid", "0");
             ("tid", tid);
             ("ts", ts) ].
Proof.
  intros w.
  assert (H1 : in_ll (m_ExecutionEnd sample_A - m_ExecutionStart sample_A))
    by (unfold in_ll; cbn; lia).
  assert (H2 : writing w default_filePath) by (vm_compute; reflexivity).
  refine (conj H1 (conj H2 _)).
  exact (C8_event_fields sample_A w default_filePath H1 H2).
Defined.

(** ** C9: the label in the output *)

Lemma std_replace_length (a b : ascii) (s : string) :
  String.length (std_replace a b s) = String.length s.
Proof. induction s as [|c s IH]; cbn; [reflexivity | now rewrite IH]. Qed.

Lemma std_replace_get (a b : ascii) (s : string) (i : nat) :
  String.get i (std_replace a b s)
  = option_map (fun c => if Ascii.eqb c a then b else c) (String.get i s).
Proof.
  revert i. induction s as [|c s IH]; intros i; [reflexivity |].
  destruct i as [|i]; cbn; [reflexivity | apply IH].
Qed.

Lemma name_field_in_event (r : ProfileResult) :
  exists before after,
    event_text r
    = before ++ quoted "name" ++ ":"
             ++ quoted (std_replace dquote squote (m_Name r)) ++ after.
Proof.
  exists ("{" ++ lit_cat ++ lit_dur
              ++ print_int (sub_ll (m_ExecutionEnd r) (m_ExecutionStart r)) ++ ","),
         ("," ++ lit_ph ++ lit_pid ++ lit_tid ++ print_int (m_ThreadID r) ++ ","
              ++ lit_ts ++ print_int (m_ExecutionStart r) ++ "}").
  unfold event_text, quoted.
  rewrite !append_assoc, !append_cons, !append_assoc. reflexivity.
Qed.

(** C9: the name that WriteProfile emits is the label with every double
    quote replaced by a single quote and every other character, backslashes
    and control characters included, left as it is and where it is: the
    length is unchanged, the character at each position is the single quote
    where the label has a double quote and the character of the label
    elsewhere, no double quote is left, and this text is what goes between
    the quotes of the name field in the file.  The label he said "hi" is
    emitted as he said 'hi'. *)
Theorem C9_label_sanitized (r : ProfileResult) :
  let emitted := std_replace dquote squote (m_Name r) in
  String.length emitted = String.length (m_Name r) /\
  (forall i c, String.get i (m_Name r) = Some c ->
     String.get i emitted = Some (if Ascii.eqb c dquote then squote else c)) /\
  (forall i c, String.get i (m_Name r) = Some c -> c <> dquote ->
     String.get i emitted = Some c) /\
  (forall i, String.get i emitted <> Some dquote) /\
  (forall w p, writing w p ->
     exists before after,
       file_text (WriteProfile r w) p
       = file_text w p ++ before ++ quoted "name" ++ ":" ++ quoted emitted ++ after) /\
  std_replace dquote squote he_said_hi = "he said 'hi'".
Proof.
  intros emitted. unfold emitted.
  split; [apply std_replace_length |].
  split; [intros i c H; now rewrite std_replace_get, H |].
  split.
  { intros i c H Hc. rewrite std_replace_get, H. cbn [option_map].
    destruct (Ascii.eqb_spec c dquote); [contradiction | reflexivity]. }
  split.
  { intros i. rewrite std_replace_get.
    destruct (String.get i (m_Name r)) as [c|]; [| discriminate].
    cbn [option_map]. destruct (Ascii.eqb_spec c dquote) as [-> | Hc].
    - discriminate.
    - intros [= E]. contradiction. }
  split; [| reflexivity].
  intros w p Hw. destruct (name_field_in_event r) as (before & after & E).
  exists ((if (0 <? m_ProfileCount (sink w))%Z then "," else EmptyString) ++ before),
         after.
  rewrite (WriteProfile_writing r w p Hw), file_text_append, E.
  rewrite !append_assoc. now destruct w as [[n o k a] d l].
Qed.

Lemma C9_label_sanitized_witness :
  let r := mkProfileResult he_said_hi 0 1 0 in
  String.get 8 (m_Name r) = Some dquote /\
  String.get 8 (std_replace dquote squote (m_Name r)) = Some squote.
Proof.
  intros r.
  assert (H : String.get 8 (m_Name r) = Some dquote) by reflexivity.
  refine (conj H _).
  exact (proj1 (proj2 (C9_label_sanitized r)) 8%nat dquote H).
Defined.

(** ** C10: the session name and the output *)

Lemma set_SessionName_twice (a b : string) (w : world) :
  set_SessionName a (set_SessionName b w) = set_SessionName a w.
Proof. now destruct w as [[n o k act] d l]. Qed.

Lemma set_SessionName_self (w : world) :
  set_SessionName (m_SessionName (sink w)) w = w.
Proof. now destruct w as [[n o k act] d l]. Qed.

Lemma disk_set_SessionName (a : string) (w : world) :
  disk (set_SessionName a w) = disk w.
Proof. now destruct w as [[n o k act] d l]. Qed.

Lemma with_stream_rename f (a : string) (w : world) :
  with_stream f (set_SessionName a w) = set_SessionName a (with_stream f w).
Proof.
  destruct w as [[n o k act] d l]. unfold with_stream. cbn [set_SessionName].
  now destruct (f o d l).
Qed.

Lemma EndSession_rename (a : string) (w : world) :
  EndSession (set_SessionName a w) = set_SessionName a (EndSession w).
Proof.
  destruct w as [[n o k [|]] d l]; cbn [set_SessionName].
  - now rewrite !EndSession_active.
  - now rewrite !EndSession_inactive.
Qed.

Lemma WriteProfile_rename (r : ProfileResult) (a : string) (w : world) :
  WriteProfile r (set_SessionName a w) = set_SessionName a (WriteProfile r w).
Proof.
  destruct w as [[n [f e] k act] d l]. cbn [set_SessionName].
  destruct e.
  - now rewrite !WriteProfile_failed.
  - destruct f as [p|].
    + now rewrite !(WriteProfile_writing r _ p).
    + now rewrite !WriteProfile_closed.
Qed.

Lemma BeginSession_inactive_unfold (name path : string) (w : world) :
  m_IsSessionActive (sink w) = false ->
  BeginSession name path w
  = set_SessionName name
      (stream_put header_text (stream_open path (set_IsSessionActive true w))).
Proof.
  intros Ha. unfold BeginSession. rewrite Ha.
  unfold WriteHeader, stream_flush, skip. now rewrite !seq_apply.
Qed.

Lemma BeginSession_rename (name name' path a : string) (w : world) :
  erase_name (BeginSession name path (set_SessionName a w))
  = erase_name (BeginSession name' path w).
Proof.
  rewrite (BeginSession_inactive_or_ended name path).
  rewrite (BeginSession_inactive_or_ended name' path).
  rewrite EndSession_rename.
  pose proof (EndSession_result_inactive w) as Ha.
  set (w1 := EndSession w) in *.
  rewrite !BeginSession_inactive_unfold;
    [| exact Ha | now destruct w1 as [[n o k act] d l]].
  unfold erase_name. rewrite !set_SessionName_twice.
  unfold stream_put, stream_open.
  destruct w1 as [[n o k act] d l]. cbn [set_SessionName set_IsSessionActive].
  unfold with_stream.
  destruct (ofstream_open path o d l) as [o1 d1].
  now destruct (ofstream_put header_text o1 d1 l).
Qed.

Lemma run_op_same_but_name (o o' : op) (w w' : world) :
  same_but_name o o' -> erase_name w = erase_name w' ->
  erase_name (run_op o w) = erase_name (run_op o' w').
Proof.
  intros Ho Hw.
  assert (Ew : w = set_SessionName (m_SessionName (sink w)) w')
    by (destruct w as [[n o1 k act] d l]; destruct w' as [[n' o1' k' act'] d' l'];
        unfold erase_name in Hw; cbn in Hw; injection Hw as -> -> -> -> ->;
        reflexivity).
  rewrite Ew. destruct Ho as [name name' path | | r]; cbn [run_op].
  - apply BeginSession_rename.
  - rewrite EndSession_rename. unfold erase_name. now rewrite set_SessionName_twice.
  - rewrite WriteProfile_rename. unfold erase_name. now rewrite set_SessionName_twice.
Qed.

(** C10: two runs of the sink from the same state whose calls differ only
    in the names given to BeginSession leave the same files, byte for byte;
    the two final states differ in m_SessionName at most. *)
Theorem C10_session_name_not_in_output (ops ops' : list op) (w : world) :
  Forall2 same_but_name ops ops' ->
  disk (run_ops ops w) = disk (run_ops ops' w) /\
  erase_name (run_ops ops w) = erase_name (run_ops ops' w).
Proof.
  intros H.
  assert (E : forall w1 w2, erase_name w1 = erase_name w2 ->
              erase_name (run_ops ops w1) = erase_name (run_ops ops' w2)).
  { induction H as [|o o' ops ops' Ho _ IH]; intros w1 w2 Hw; [exact Hw |].
    cbn [run_ops]. apply IH. now apply run_op_same_but_name. }
  specialize (E w w eq_refl). split; [| exact E].
  rewrite <- (disk_set_SessionName EmptyString (run_ops ops w)).
  rewrite <- (disk_set_SessionName EmptyString (run_ops ops' w)).
  now f_equal.
Qed.

Lemma C10_session_name_not_in_output_witness :
  Forall2 same_but_name
    [OBegin "Profile" default_filePath; OWrite sample_A; OEnd]
    [OBegin "Other" default_filePath; OWrite sample_A; OEnd] /\
  disk (run_ops [OBegin "Profile" default_filePath; OWrite sample_A; OEnd]
                fresh_world)
  = disk (run_ops [OBegin "Other" default_filePath; OWrite sample_A; OEnd]
                  fresh_world).
Proof.
  assert (H : Forall2 same_but_name
                [OBegin "Profile" default_filePath; OWrite sample_A; OEnd]
                [OBegin "Other" default_filePath; OWrite sample_A; OEnd])
    by (repeat constructor).
  refine (conj H _).
  exact (proj1 (C10_session_name_not_in_output _ _ fresh_world H)).
Defined.

(** * Further properties of the code *)

(** ** Ending a session *)

(** X1: EndSession is idempotent, and the destructor of the Instrumentor
    after an explicit EndSession changes nothing, neither in the sink nor in
    any file. *)
Theorem X1_EndSession_twice (w : world) :
  EndSession (EndSession w) = EndSession w /\
  Instrumentor_dtor (EndSession w) = EndSession w.
Proof.
  assert (H : EndSession (EndSession w) = EndSession w)
    by apply EndSession_inactive, EndSession_result_inactive.
  split; exact H.
Qed.

Lemma EndSession_other_file (w : world) (q : string) :
  os_file (m_OutputStream (sink w)) <> Some q ->
  disk (EndSession w) !! q = disk w !! q.
Proof.
  destruct w as [[name [f e] k [|]] d l]; intros Hq.
  - rewrite EndSession_active. cbn [sink disk m_OutputStream os_file] in *.
    unfold ofstream_put. cbn [os_fail os_file].
    destruct e; [reflexivity |]. destruct f as [p|]; [| reflexivity].
    cbn [snd]. rewrite lookup_insert_ne; [reflexivity | congruence].
  - now rewrite EndSession_inactive.
Qed.

Lemma EndSession_name (w : world) :
  m_SessionName (sink (EndSession w)) = m_SessionName (sink w).
Proof.
  destruct w as [[name os k [|]] d l].
  - now rewrite EndSession_active.
  - now rewrite EndSession_inactive.
Qed.

(** X2: in every state that the sink reaches from its initial state,
    EndSession leaves no session active and the stream closed; the counter
    is reset to 0 when a session was active and kept otherwise, and the set
    of files changes by at most the footer at the end of the open file. *)
Theorem X2_EndSession_state
    (files : gmap string string) (locked : gset string) (ops : list op) :
  let w := run_ops ops (world_init files locked) in
  m_IsSessionActive (sink (EndSession w)) = false /\
  os_file (m_OutputStream (sink (EndSession w))) = None /\
  m_ProfileCount (sink (EndSession w))
  = (if m_IsSessionActive (sink w) then 0%Z else m_ProfileCount (sink w)) /\
  m_SessionName (sink (EndSession w)) = m_SessionName (sink w) /\
  (forall q, os_file (m_OutputStream (sink w)) <> Some q ->
     disk (EndSession w) !! q = disk w !! q).
Proof.
  intros w.
  assert (Hinv : sink_inv w) by (apply sink_inv_run_ops, sink_inv_init).
  split; [apply EndSession_result_inactive |].
  split; [now apply EndSession_closed |].
  split; [apply EndSession_count |].
  split; [apply EndSession_name |].
  intros q. apply EndSession_other_file.
Qed.

Lemma X2_EndSession_state_witness :
  os_file (m_OutputStream
             (sink (run_ops [OBegin "T" default_filePath; OWrite sample_A]
                            fresh_world))) <> Some "other.json" /\
  disk (EndSession (run_ops [OBegin "T" default_filePath; OWrite sample_A]
                            fresh_world)) !! "other.json"
  = disk (run_ops [OBegin "T" default_filePath; OWrite sample_A] fresh_world)
    !! "other.json".
Proof.
  assert (H : os_file (m_OutputStream
                (sink (run_ops [OBegin "T" default_filePath; OWrite sample_A]
                               fresh_world))) <> Some "other.json")
    by (vm_compute; discriminate).
  refine (conj H _).
  exact (proj2 (proj2 (proj2 (proj2
    (X2_EndSession_state ∅ ∅ [OBegin "T" default_filePath; OWrite sample_A]))))
    "other.json" H).
Defined.

(** ** What WriteProfile leaves alone *)

Lemma WriteProfile_os_file (r : ProfileResult) (w : world) :
  os_file (m_OutputStream (sink (WriteProfile r w)))
  = os_file (m_OutputStream (sink w)).
Proof. stream_cases w; reflexivity. Qed.

Lemma WriteProfile_other_file (r : ProfileResult) (w : world) (q : string) :
  os_file (m_OutputStream (sink w)) <> Some q ->
  disk (WriteProfile r w) !! q = disk w !! q.
Proof.
  stream_cases w; intros Hq; try reflexivity.
  cbn [sink m_OutputStream os_file] in Hq.
  unfold append_file, set_disk, set_ProfileCount. cbn [disk].
  rewrite lookup_insert_ne; [reflexivity | congruence].
Qed.

(** X3: in every state, whatever the stream is doing, a call of
    WriteProfile changes neither the active flag, nor the session name, nor
    the file on which the stream is open, and it changes no file other than
    that one. *)
Theorem X3_WriteProfile_frame (r : ProfileResult) (w : world) :
  m_IsSessionActive (sink (WriteProfile r w)) = m_IsSessionActive (sink w) /\
  m_SessionName (sink (WriteProfile r w)) = m_SessionName (sink w) /\
  os_file (m_OutputStream (sink (WriteProfile r w)))
  = os_file (m_OutputStream (sink w)) /\
  (forall q, os_file (m_OutputStream (sink w)) <> Some q ->
     disk (WriteProfile r w) !! q = disk w !! q).
Proof.
  split; [apply WriteProfile_active |].
  split; [apply WriteProfile_name |].
  split; [apply WriteProfile_os_file |].
  intros q. apply WriteProfile_other_file.
Qed.

Lemma X3_WriteProfile_frame_witness :
  let w := BeginSession "T" default_filePath fresh_world in
  os_file (m_OutputStream (sink w)) <> Some "other.json" /\
  disk (WriteProfile sample_A w) !! "other.json" = disk w !! "other.json".
Proof.
  intros w.
  assert (H : os_file (m_OutputStream (sink w)) <> Some "other.json")
    by (vm_compute; discriminate).
  refine (conj H _).
  exact (proj2 (proj2 (proj2 (X3_WriteProfile_frame sample_A w))) "other.json" H).
Defined.

(** ** The counter *)

(** X4: m_ProfileCount counts the calls of WriteProfile.  From a counter
    k >= 0, after n calls with k + n below 2^31 the counter is k + n,
    whether the stream is open, closed or failed; so in a session begun
    with the counter at 0 it is the number of records submitted so far. *)
Theorem X4_counter_counts_calls (rs : list ProfileResult) (w : world) :
  (0 <= m_ProfileCount (sink w))%Z ->
  (m_ProfileCount (sink w) + Z.of_nat (length rs) < 2 ^ 31)%Z ->
  m_ProfileCount (sink (write_all rs w))
  = (m_ProfileCount (sink w) + Z.of_nat (length rs))%Z.
Proof.
  revert w. induction rs as [|r rs IH]; intros w H0 Hn.
  - cbn [length]. unfold write_all. cbn [map run_ops]. lia.
  - cbn [length] in *. rewrite write_all_cons.
    assert (Hc : m_ProfileCount (sink (WriteProfile r w))
                 = (m_ProfileCount (sink w) + 1)%Z).
    { rewrite WriteProfile_count. apply wrap_int_id. unfold in_int. lia. }
    rewrite IH; rewrite Hc; lia.
Qed.

Lemma X4_counter_counts_calls_witness :
  (0 <= m_ProfileCount (sink fresh_world))%Z /\
  (m_ProfileCount (sink fresh_world)
   + Z.of_nat (length [sample_A; sample_B; sample_A]) < 2 ^ 31)%Z /\
  m_ProfileCount (sink (write_all [sample_A; sample_B; sample_A] fresh_world))
  = (m_ProfileCount (sink fresh_world)
     + Z.of_nat (length [sample_A; sample_B; sample_A]))%Z.
Proof.
  assert (H1 : (0 <= m_ProfileCount (sink fresh_world))%Z) by (cbn; lia).
  assert (H2 : (m_ProfileCount (sink fresh_world)
                + Z.of_nat (length [sample_A; sample_B; sample_A]) < 2 ^ 31)%Z)
    by (cbn; lia).
  refine (conj H1 (conj H2 _)).
  exact (X4_counter_counts_calls [sample_A; sample_B; sample_A]
           fresh_world H1 H2).
Defined.

(** ** Files *)

Lemma BeginSession_other_file (name path q : string) (w : world) :
  sink_inv w -> path <> q ->
  os_file (m_OutputStream (sink w)) <> Some q ->
  disk (BeginSession name path w) !! q = disk w !! q.
Proof.
  intros Hinv Hp Hq. rewrite (BeginSession_ended name path w Hinv).
  rewrite <- (EndSession_other_file w q Hq).
  destruct (decide (path ∈ denied w)); cbn [disk]; [reflexivity |].
  now rewrite lookup_insert_ne.
Qed.

Lemma BeginSession_os_file (name path : string) (w : world) :
  sink_inv w ->
  os_file (m_OutputStream (sink (BeginSession name path w)))
  = if decide (path ∈ denied w) then None else Some path.
Proof.
  intros Hinv. rewrite (BeginSession_ended name path w Hinv).
  now destruct (decide (path ∈ denied w)).
Qed.

Lemma run_ops_other_file (ops : list op) (q : string) (w : world) :
  sink_inv w ->
  os_file (m_OutputStream (sink w)) <> Some q ->
  (forall name path, In (OBegin name path) ops -> path <> q) ->
  disk (run_ops ops w) !! q = disk w !! q.
Proof.
  revert w. induction ops as [|o ops IH]; intros w Hinv Hq Hops;
    [reflexivity |].
  cbn [run_ops].
  assert (Hops' : forall name path, In (OBegin name path) ops -> path <> q)
    by (intros name path Hin; apply (Hops name); now right).
  rewrite IH; [| now apply sink_inv_run_op | | exact Hops'].
  - destruct o as [name path | | r]; cbn [run_op].
    + apply BeginSession_other_file; [exact Hinv | | exact Hq].
      apply (Hops name). now left.
    + now apply EndSession_other_file.
    + now apply WriteProfile_other_file.
  - destruct o as [name path | | r]; cbn [run_op].
    + rewrite (BeginSession_os_file name path w Hinv).
      destruct (decide (path ∈ denied w)); [discriminate |].
      intros [= E]. apply (Hops name path); [now left | exact E].
    + rewrite (EndSession_closed w Hinv). discriminate.
    + now rewrite WriteProfile_os_file.
Qed.

(** A session begun under another spelling of a file's path overwrites
    that file. *)
Example other_spelling_same_file :
  disk (run_calls sample_resolve [OBegin "T" "./a.json"]
          (world_init {["a.json" := "keep"]} ∅)) !! "a.json"
  = Some header_text.
Proof. vm_compute. reflexivity. Qed.

Lemma resolved_begin_paths
    (resolve : string -> string) (ops : list op) (file : string) :
  (forall name path, In (OBegin name path) ops -> resolve path <> file) ->
  forall name path,
    In (OBegin name path) (map (resolve_op resolve) ops) -> path <> file.
Proof.
  intros H name path Hin. apply in_map_iff in Hin as (o & Eo & Ho).
  destruct o as [name0 path0 | | r]; cbn [resolve_op] in Eo;
    try discriminate Eo.
  injection Eo as <- <-. now apply (H name0).
Qed.

(** X5: the sink only ever touches the files it was told to open.  In a
    run of BeginSession, EndSession and WriteProfile calls from the initial
    state, a file that no path given to a BeginSession of the run names is,
    at the end, what it was at the start (or still absent); a path that is
    another spelling of the file's own path names that file. *)
Theorem X5_other_files_untouched
    (resolve : string -> string)
    (files : gmap string string) (locked : gset string)
    (ops : list op) (file : string) :
  (forall name path, In (OBegin name path) ops -> resolve path <> file) ->
  disk (run_calls resolve ops (world_init files locked)) !! file = files !! file.
Proof.
  intros Hops. unfold run_calls.
  apply (run_ops_other_file _ file (world_init files locked)).
  - apply sink_inv_init.
  - discriminate.
  - now apply resolved_begin_paths.
Qed.

Lemma X5_other_files_untouched_witness :
  (forall name path,
     In (OBegin name path) [OBegin "T" "./results.json"; OWrite sample_A; OEnd] ->
     sample_resolve path <> "notes.txt") /\
  disk (run_calls sample_resolve
          [OBegin "T" "./results.json"; OWrite sample_A; OEnd]
          (world_init {["notes.txt" := "keep"]} ∅)) !! "notes.txt"
  = ({["notes.txt" := "keep"]} : gmap string string) !! "notes.txt".
Proof.
  assert (H : forall name path,
            In (OBegin name path)
               [OBegin "T" "./results.json"; OWrite sample_A; OEnd] ->
            sample_resolve path <> "notes.txt").
  { intros name path [E | [E | [E | []]]]; try discriminate E.
    injection E as _ <-. discriminate. }
  refine (conj H _).
  exact (X5_other_files_untouched sample_resolve {["notes.txt" := "keep"]} ∅
           [OBegin "T" "./results.json"; OWrite sample_A; OEnd] "notes.txt" H).
Defined.

(** X6: BeginSession truncates.  On a sink whose stream is closed while no
    session is active, at a path that can be opened, BeginSession leaves at
    that path a file that holds the header and nothing else, whatever the
    file held before (the document of an earlier session included), with
    the stream open on it and free of errors. *)
Theorem X6_BeginSession_truncates (name path : string) (w : world) :
  sink_inv w -> (path ∉ denied w) ->
  disk (BeginSession name path w) !! path = Some header_text /\
  m_OutputStream (sink (BeginSession name path w))
  = {| os_file := Some path; os_fail := false |} /\
  m_IsSessionActive (sink (BeginSession name path w)) = true /\
  m_SessionName (sink (BeginSession name path w)) = name.
Proof.
  intros Hinv Hp. rewrite (BeginSession_opened name path w Hinv Hp).
  cbn [disk sink m_OutputStream m_IsSessionActive m_SessionName].
  now rewrite lookup_insert_eq.
Qed.

Lemma X6_BeginSession_truncates_witness :
  let w := world_init {[default_filePath := "old text"]} ∅ in
  sink_inv w /\ (default_filePath ∉ denied w) /\
  disk (BeginSession "U" default_filePath w) !! default_filePath = Some header_text.
Proof.
  intros w.
  assert (H1 : sink_inv w) by apply sink_inv_init.
  assert (H2 : default_filePath ∉ denied w) by apply not_elem_of_empty.
  refine (conj H1 (conj H2 _)).
  exact (proj1 (X6_BeginSession_truncates "U" default_filePath w H1 H2)).
Defined.

(** X7: the open file always starts with the header.  In every state that
    the sink reaches from its initial state, if the stream is open then a
    session is active and the file it is open on exists and begins with the
    header text. *)
Theorem X7_open_file_starts_with_header
    (files : gmap string string) (locked : gset string)
    (ops : list op) (p : string) :
  let w := run_ops ops (world_init files locked) in
  os_file (m_OutputStream (sink w)) = Some p ->
  m_IsSessionActive (sink w) = true /\
  exists body, disk w !! p = Some (header_text ++ body).
Proof.
  intros w.
  assert (G : forall w0,
            sink_inv w0 ->
            (forall p0, os_file (m_OutputStream (sink w0)) = Some p0 ->
               exists body, disk w0 !! p0 = Some (header_text ++ body)) ->
            forall p0, os_file (m_OutputStream (sink (run_ops ops w0))) = Some p0 ->
               exists body, disk (run_ops ops w0) !! p0 = Some (header_text ++ body)).
  { induction ops as [|o ops IH]; intros w0 Hinv H0; [exact H0 |].
    cbn [run_ops]. apply IH; [now apply sink_inv_run_op |].
    destruct o as [name path | | r]; cbn [run_op]; intros p0.
    - rewrite (BeginSession_ended name path w0 Hinv).
      destruct (decide (path ∈ denied w0));
        cbn [sink m_OutputStream os_file disk]; [discriminate |].
      intros [= <-]. exists EmptyString.
      now rewrite lookup_insert_eq, append_empty_r.
    - rewrite (EndSession_closed w0 Hinv). discriminate.
    - rewrite WriteProfile_os_file. intros Hp0.
      destruct (H0 p0 Hp0) as [body Hb].
      destruct w0 as [[n [f e] k a] d l].
      cbn [sink m_OutputStream os_file disk] in *. subst f.
      destruct e.
      + rewrite WriteProfile_failed; [| reflexivity]. now exists body.
      + rewrite (WriteProfile_writing _ _ p0); [| reflexivity].
        unfold append_file, set_disk, set_ProfileCount, file_text. cbn [disk].
        rewrite lookup_insert_eq, Hb. cbn [default from_option id].
        eexists. now rewrite append_assoc. }
  intros Hp. split.
  - destruct (m_IsSessionActive (sink w)) eqn:Ha; [reflexivity |].
    assert (Hinv : sink_inv w) by (apply sink_inv_run_ops, sink_inv_init).
    rewrite (Hinv Ha) in Hp. discriminate.
  - apply (G (world_init files locked)); [apply sink_inv_init | | exact Hp].
    intros p0 H. discriminate H.
Qed.

Lemma X7_open_file_starts_with_header_witness :
  os_file (m_OutputStream
             (sink (run_ops [OBegin "T" default_filePath; OWrite sample_A]
                            (world_init ∅ ∅)))) = Some default_filePath /\
  m_IsSessionActive
    (sink (run_ops [OBegin "T" default_filePath; OWrite sample_A]
                   (world_init ∅ ∅))) = true.
Proof.
  assert (H : os_file (m_OutputStream
                (sink (run_ops [OBegin "T" default_filePath; OWrite sample_A]
                               (world_init ∅ ∅)))) = Some default_filePath)
    by (vm_compute; reflexivity).
  refine (conj H _).
  exact (proj1 (X7_open_file_starts_with_header ∅ ∅
                  [OBegin "T" default_filePath; OWrite sample_A]
                  default_filePath H)).
Defined.

(** ** A session that is not ended *)

Lemma begun_session (w : world) (name path : string) (rs : list ProfileResult) :
  sink_inv w ->
  (m_IsSessionActive (sink w) = false -> m_ProfileCount (sink w) = 0%Z) ->
  (path ∉ denied w) ->
  (Z.of_nat (length rs) <= 2 ^ 31)%Z ->
  let w' := write_all rs (BeginSession name path w) in
  writing w' path /\
  file_text w' path = header_text ++ comma_join (map event_text rs) /\
  m_IsSessionActive (sink w') = true.
Proof.
  intros Hinv Hk0 Hp Hn w'. unfold w'.
  rewrite (BeginSession_opened name path w Hinv Hp).
  assert (Hk : m_ProfileCount (sink (EndSession w)) = 0%Z).
  { rewrite EndSession_count. destruct (m_IsSessionActive (sink w)); auto. }
  rewrite Hk. set (w1 := mkWorld _ _ _).
  assert (Hw1 : writing w1 path) by reflexivity.
  destruct (write_all_writing rs w1 path Hw1) as (Hw2 & Ht & _ & Ha & _).
  { cbn. lia. }
  { cbn. lia. }
  split; [exact Hw2 |]. split; [| now rewrite Ha].
  rewrite Ht. unfold w1, file_text at 1. cbn [disk sink m_ProfileCount Z.eqb].
  rewrite lookup_insert_eq. cbn [default from_option id].
  now rewrite comma_join_records.
Qed.

(** X8: every record is on disk as soon as WriteProfile returns.  In a
    session that has been begun and not ended, after any number of calls
    the file holds the header and the event objects joined by commas; it
    lacks exactly the footer of the complete document, and without the
    footer it is not a JSON text (labels without backslash and control
    character). *)
Theorem X8_unfinished_session_on_disk
    (w : world) (name path : string) (rs : list ProfileResult) :
  sink_inv w ->
  (m_IsSessionActive (sink w) = false -> m_ProfileCount (sink w) = 0%Z) ->
  (path ∉ denied w) ->
  Forall (fun r => label_ok (m_Name r) = true) rs ->
  (Z.of_nat (length rs) <= 2 ^ 31)%Z ->
  let w' := write_all rs (BeginSession name path w) in
  file_text w' path = header_text ++ comma_join (map event_text rs) /\
  document rs = file_text w' path ++ footer_text /\
  Json.valid (file_text w' path) = false /\
  m_IsSessionActive (sink w') = true.
Proof.
  intros Hinv Hk0 Hp Hl Hn w'.
  destruct (begun_session w name path rs Hinv Hk0 Hp Hn) as (_ & Ht & Ha).
  fold w' in Ht, Ha. rewrite Ht.
  split; [reflexivity |]. split; [unfold document; now rewrite append_assoc |].
  split; [| exact Ha].
  unfold Json.valid. rewrite run_app, run_header, comma_join_records.
  rewrite (run_records rs Hl). now destruct rs.
Qed.

Lemma X8_unfinished_session_on_disk_witness :
  sink_inv fresh_world /\
  (m_IsSessionActive (sink fresh_world) = false ->
   m_ProfileCount (sink fresh_world) = 0%Z) /\
  (default_filePath ∉ denied fresh_world) /\
  Forall (fun r => label_ok (m_Name r) = true) [sample_A; sample_B] /\
  (Z.of_nat (length [sample_A; sample_B]) <= 2 ^ 31)%Z /\
  Json.valid
    (file_text (write_all [sample_A; sample_B]
                  (BeginSession "T" default_filePath fresh_world))
       default_filePath) = false.
Proof.
  assert (H1 : sink_inv fresh_world) by apply sink_inv_init.
  assert (H2 : m_IsSessionActive (sink fresh_world) = false ->
               m_ProfileCount (sink fresh_world) = 0%Z) by reflexivity.
  assert (H3 : default_filePath ∉ denied fresh_world) by apply not_elem_of_empty.
  assert (H4 : Forall (fun r => label_ok (m_Name r) = true) [sample_A; sample_B])
    by (repeat constructor).
  assert (H5 : (Z.of_nat (length [sample_A; sample_B]) <= 2 ^ 31)%Z)
    by (vm_compute; discriminate).
  refine (conj H1 (conj H2 (conj H3 (conj H4 (conj H5 _))))).
  exact (proj1 (proj2 (proj2
    (X8_unfinished_session_on_disk fresh_world "T" default_filePath
       [sample_A; sample_B] H1 H2 H3 H4 H5)))).
Defined.

(** ** Scopes *)

Lemma PROFILE_SCOPE_plain
    (name : string) (t_enter t_exit : time_point) (thread_hash : Z)
    (code : world -> exit_kind * world) (w : world) :
  PROFILE_SCOPE name t_enter (plain_block code) t_exit thread_hash w
  = (fst (code w),
     WriteProfile
       {| m_Name := name;
          m_ExecutionStart := to_microseconds t_enter;
          m_ExecutionEnd := to_microseconds t_exit;
          m_ThreadID := wrap_u32 thread_hash |}
       (snd (code w))).
Proof.
  unfold PROFILE_SCOPE, plain_block. cbn [fst snd].
  destruct (code w) as [x w1]. cbn [fst snd].
  rewrite dtor_not_stopped; reflexivity.
Qed.

Lemma write_all_app (rs1 rs2 : list ProfileResult) (w : world) :
  write_all (rs1 ++ rs2) w = write_all rs2 (write_all rs1 w).
Proof.
  revert w. induction rs1 as [|r rs1 IH]; intros w; [reflexivity |].
  change ((r :: rs1) ++ rs2)%list with (r :: (rs1 ++ rs2))%list.
  rewrite !write_all_cons. apply IH.
Qed.

Lemma write_all_one (r : ProfileResult) (w : world) :
  write_all [r] w = WriteProfile r w.
Proof. rewrite write_all_cons. reflexivity. Qed.

Lemma run_scoped_exit_order (thread_hash : Z) (t : scoped) (w : world) :
  run_scoped thread_hash t w = write_all (exit_order thread_hash t) w.
Proof.
  revert t w. fix IH 1. intros [name t_enter inner t_exit kind] w.
  cbn [run_scoped exit_order]. rewrite PROFILE_SCOPE_plain. cbn [fst snd].
  rewrite write_all_app, write_all_one. f_equal.
  clear name t_enter t_exit kind. revert w.
  induction inner as [|t' rest IHrest]; intros w; [reflexivity |].
  rewrite write_all_app, <- (IH t' w). apply IHrest.
Qed.

Lemma exit_order_length (thread_hash : Z) (t : scoped) :
  length (exit_order thread_hash t) = scope_count t.
Proof.
  revert t. fix IH 1. intros [name t_enter inner t_exit kind].
  cbn [exit_order scope_count]. rewrite length_app. cbn [length].
  rewrite Nat.add_1_r. f_equal.
  induction inner as [|t' rest IHrest]; [reflexivity |].
  rewrite length_app, (IH t'). now rewrite IHrest.
Qed.

(** X9: scopes write in the order in which they are left.  Code made of
    nested and consecutive blocks that each start with PROFILE_SCOPE has, on
    the sink, the effect of one WriteProfile call per scope, the calls of
    the scopes inside a scope coming before its own; the measurement of a
    scope carries its label, its two clock readings in microseconds and the
    thread identifier. *)
Theorem X9_scopes_write_in_exit_order
    (thread_hash : Z) (ts : list scoped) (w : world) :
  run_scopes thread_hash ts w = write_all (exit_orders thread_hash ts) w /\
  length (exit_orders thread_hash ts)
  = list_sum (map scope_count ts) /\
  (forall name t_enter inner t_exit kind,
     exit_order thread_hash (Scoped name t_enter inner t_exit kind)
     = (exit_orders thread_hash inner
        ++ [ {| m_Name := name;
                m_ExecutionStart := to_microseconds t_enter;
                m_ExecutionEnd := to_microseconds t_exit;
                m_ThreadID := wrap_u32 thread_hash |} ])%list).
Proof.
  split; [| split].
  - revert w. induction ts as [|t ts IH]; intros w; [reflexivity |].
    unfold exit_orders. cbn [run_scopes map concat].
    rewrite write_all_app, <- run_scoped_exit_order. apply IH.
  - unfold exit_orders. induction ts as [|t ts IH]; [reflexivity |].
    cbn [map concat list_sum]. rewrite length_app, exit_order_length.
    now rewrite IH.
  - intros name t_enter inner t_exit kind. cbn [exit_order scope_result].
    f_equal. unfold exit_orders.
    induction inner as [|t' rest IH]; [reflexivity |].
    cbn [map concat]. now rewrite IH.
Qed.

(** X10: a block that stops its timer itself submits one measurement, not
    two.  When the code of the block calls Stop once, the destructor at the
    end of the block finds the timer stopped and does nothing: the sink
    sees a single WriteProfile call, made at the moment of the explicit
    Stop, whose end timestamp is the clock reading of that moment and not
    that of the end of the block. *)
Theorem X10_explicit_Stop_then_exit
    (name : string) (t_enter t_stop t_exit : time_point) (h h_exit : Z)
    (before : world -> world) (rest : world -> exit_kind * world) (w : world) :
  let stopped :=
    WriteProfile
      {| m_Name := name;
         m_ExecutionStart := to_microseconds t_enter;
         m_ExecutionEnd := to_microseconds t_stop;
         m_ThreadID := wrap_u32 h |}
      (before w) in
  PROFILE_SCOPE name t_enter (stopping_block before t_stop h rest) t_exit h_exit w
  = rest stopped.
Proof.
  intros stopped. unfold PROFILE_SCOPE, stopping_block.
  cbn [fst snd Stop InstrumentationTimer_ctor m_ProfileResult m_Name m_StartPoint].
  fold stopped. destruct (rest stopped) as [k w2]. reflexivity.
Qed.

(** ** The measurement that Stop builds *)

Lemma to_microseconds_range (t : time_point) :
  in_ll t ->
  (- 9223372036854775 <= to_microseconds t <= 9223372036854775)%Z.
Proof.
  unfold in_ll, to_microseconds. intros [Hlo Hhi]. split.
  - transitivity (Z.quot (- 2 ^ 63) 1000); [vm_compute; discriminate |].
    apply Z.quot_le_mono; lia.
  - transitivity (Z.quot (2 ^ 63 - 1) 1000); [| vm_compute; discriminate].
    apply Z.quot_le_mono; lia.
Qed.

(** X11: with a clock that does not run backwards the duration is not
    negative.  When the clock reading at Stop is not before the reading at
    construction (both in the range of the 64-bit tick count), the
    measurement that Stop submits has start <= end in microseconds, the
    long long difference that WriteProfile prints is exactly end - start
    and is >= 0, and the thread identifier is in the range of uint32_t. *)
Theorem X11_monotonic_clock_duration
    (t : InstrumentationTimer) (w : world) (now : time_point) (thread_hash : Z) :
  in_ll (m_StartPoint t) -> in_ll now -> (m_StartPoint t <= now)%Z ->
  let r := m_ProfileResult (fst (Stop now thread_hash (t, w))) in
  (m_ExecutionStart r <= m_ExecutionEnd r)%Z /\
  sub_ll (m_ExecutionEnd r) (m_ExecutionStart r)
  = (m_ExecutionEnd r - m_ExecutionStart r)%Z /\
  (0 <= sub_ll (m_ExecutionEnd r) (m_ExecutionStart r))%Z /\
  (0 <= m_ThreadID r < 2 ^ 32)%Z.
Proof.
  intros Hs Hn Hle r. unfold r, Stop.
  cbn [fst m_ProfileResult m_ExecutionStart m_ExecutionEnd m_ThreadID].
  pose proof (to_microseconds_range _ Hs) as Rs.
  pose proof (to_microseconds_range _ Hn) as Rn.
  assert (Hm : (to_microseconds (m_StartPoint t) <= to_microseconds now)%Z)
    by (unfold to_microseconds; apply Z.quot_le_mono; lia).
  assert (Hd : sub_ll (to_microseconds now) (to_microseconds (m_StartPoint t))
               = (to_microseconds now - to_microseconds (m_StartPoint t))%Z)
    by (unfold sub_ll; apply wrap_ll_id; unfold in_ll; lia).
  split; [exact Hm |]. split; [exact Hd |]. split; [rewrite Hd; lia |].
  unfold wrap_u32. apply Z.mod_pos_bound. lia.
Qed.

Lemma X11_monotonic_clock_duration_witness :
  let t := InstrumentationTimer_ctor "A" 1000 in
  in_ll (m_StartPoint t) /\ in_ll 5999 /\ (m_StartPoint t <= 5999)%Z /\
  (0 <= sub_ll
          (m_ExecutionEnd (m_ProfileResult (fst (Stop 5999 7 (t, fresh_world)))))
          (m_ExecutionStart (m_ProfileResult (fst (Stop 5999 7 (t, fresh_world))))))%Z.
Proof.
  intros t.
  assert (H1 : in_ll (m_StartPoint t)) by (unfold in_ll; cbn; lia).
  assert (H2 : in_ll 5999) by (unfold in_ll; lia).
  assert (H3 : (m_StartPoint t <= 5999)%Z) by (cbn; lia).
  refine (conj H1 (conj H2 (conj H3 _))).
  exact (proj1 (proj2 (proj2
    (X11_monotonic_clock_duration t fresh_world 5999 7 H1 H2 H3)))).
Defined.

(** ** Labels and the validity of the output *)

Lemma std_replace_app (a b : ascii) (s1 s2 : string) :
  std_replace a b (s1 ++ s2) = std_replace a b s1 ++ std_replace a b s2.
Proof.
  induction s1 as [|c s1 IH]; [reflexivity |].
  rewrite append_cons. cbn [std_replace]. now rewrite append_cons, IH.
Qed.

(** X12: std::replace as WriteProfile uses it is idempotent and works
    character by character: replacing twice gives what replacing once
    gives, and the replacement of a concatenation is the concatenation of
    the replacements. *)
Theorem X12_std_replace_idempotent (a b : ascii) (s s' : string) :
  std_replace a b (std_replace a b s) = std_replace a b s /\
  std_replace a b (s ++ s') = std_replace a b s ++ std_replace a b s'.
Proof.
  split; [| apply std_replace_app].
  induction s as [|c s IH]; [reflexivity |].
  cbn [std_replace]. rewrite IH. f_equal.
  destruct (Ascii.eqb_spec c a) as [-> | Hc].
  - destruct (Ascii.eqb_spec b a) as [E | E]; reflexivity.
  - destruct (Ascii.eqb_spec c a); [contradiction | reflexivity].
Qed.

(** X13: the name that WriteProfile emits for a label without backslash and
    without control character is, between its two quotes, a JSON string:
    the replacement of the double quotes is enough for such labels. *)
Theorem X13_emitted_name_is_json_string (s : string) :
  label_ok s = true ->
  Json.valid (quoted (std_replace dquote squote s)) = true.
Proof.
  intros H. unfold Json.valid, quoted. cbn [Json.run].
  change (Json.step Json.start dquote) with (Json.goto (Json.MString false) Json.start).
  rewrite run_app.
  rewrite (run_plain _ (Json.goto (Json.MString false) Json.start) false
             (sanitized_plain s H) eq_refl).
  reflexivity.
Qed.

Lemma X13_emitted_name_is_json_string_witness :
  label_ok he_said_hi = true /\
  Json.valid (quoted (std_replace dquote squote he_said_hi)) = true.
Proof.
  assert (H : label_ok he_said_hi = true) by reflexivity.
  refine (conj H _).
  exact (X13_emitted_name_is_json_string he_said_hi H).
Defined.

Lemma run_error (text : string) (st : Json.pda) :
  Json.pmode st = Json.MError -> Json.run text st = st.
Proof.
  revert st. induction text as [|c text IH]; intros st H; [reflexivity |].
  cbn [Json.run]. replace (Json.step st c) with st; [now apply IH |].
  unfold Json.step. now rewrite H.
Qed.

Lemma run_error_mode (text : string) (st : Json.pda) :
  Json.pmode st = Json.MError -> Json.pmode (Json.run text st) = Json.MError.
Proof. intros H. now rewrite run_error. Qed.

Lemma records_text_app (first : bool) (rs1 rs2 : list ProfileResult) :
  records_text first (rs1 ++ rs2)
  = records_text first rs1
    ++ records_text (first && match rs1 with [] => true | _ => false end) rs2.
Proof.
  revert first. induction rs1 as [|r rs1 IH]; intros first.
  - cbn [records_text app]. now rewrite andb_true_r.
  - change ((r :: rs1) ++ rs2)%list with (r :: (rs1 ++ rs2))%list.
    cbn [records_text]. rewrite IH, andb_false_r. cbn [andb].
    now rewrite !append_assoc.
Qed.

(** The recogniser on an event whose label ends with a backslash: the
    backslash takes the closing quote of the name with it, the string ends
    at the next quote and what follows is no JSON. *)
Lemma run_event_trailing_backslash
    (r : ProfileResult) (s : string) (m : Json.mode) (n : nat) :
  m_Name r = s ++ String Json.backslash EmptyString ->
  label_ok s = true ->
  m = Json.MValue \/ m = Json.MArrayStart ->
  Json.pmode (Json.run (event_text r) (between m n)) = Json.MError.
Proof.
  intros Hname Hs Hm. unfold event_text. rewrite Hname, std_replace_app.
  rewrite !run_app.
  rewrite (run_open_brace m n Hm).
  rewrite run_lit_cat, run_lit_dur, run_number, run_comma_after_number.
  rewrite run_lit_name, (run_label _ _ Hs).
  change (Json.run (std_replace dquote squote (String Json.backslash EmptyString))
            (inside (Json.MString false) n))
    with (inside (Json.MEscape false) n).
  change (Json.run lit_name_end (inside (Json.MEscape false) n))
    with (inside (Json.MString false) n).
  change (Json.run lit_ph (inside (Json.MString false) n))
    with (inside Json.MError n).
  repeat apply run_error_mode. reflexivity.
Qed.

(** X14: a label that ends with a backslash breaks the document.  Whatever
    the other records of the session are, if one record has a label made of
    characters that are neither backslash nor control character followed by
    one backslash, and the records before it have labels without backslash
    and control character, the complete document is not a JSON text. *)
Theorem X14_trailing_backslash_breaks_document
    (rs1 rs2 : list ProfileResult) (r : ProfileResult) (s : string) :
  Forall (fun r1 => label_ok (m_Name r1) = true) rs1 ->
  label_ok s = true ->
  m_Name r = s ++ String Json.backslash EmptyString ->
  Json.valid (document (rs1 ++ r :: rs2)) = false.
Proof.
  intros H1 Hs Hname. unfold Json.valid, document.
  rewrite !run_app, run_header, comma_join_records, records_text_app.
  rewrite run_app, (run_records rs1 H1). cbn [andb records_text].
  rewrite !run_app.
  assert (E : Json.pmode
                (Json.run (event_text r)
                   (Json.run (if match rs1 with [] => true | _ => false end
                              then EmptyString else ",")
                      (between (match rs1 with
                                | [] => Json.MArrayStart
                                | _ => Json.MAfter
                                end) (length rs1))))
              = Json.MError).
  { destruct rs1 as [|r1 rs1].
    - apply (run_event_trailing_backslash r s); auto.
    - change (Json.run "," (between Json.MAfter (length (r1 :: rs1))))
        with (between Json.MValue (length (r1 :: rs1))).
      apply (run_event_trailing_backslash r s); auto. }
  rewrite (run_error (records_text false rs2) _ E).
  rewrite (run_error footer_text _ E).
  unfold Json.accepting. rewrite E. now destruct (Json.pstack _).
Qed.

Lemma X14_trailing_backslash_breaks_document_witness :
  Forall (fun r1 => label_ok (m_Name r1) = true) [sample_A] /\
  label_ok EmptyString = true /\
  m_Name sample_backslash = EmptyString ++ String Json.backslash EmptyString /\
  Json.valid (document ([sample_A] ++ sample_backslash :: [sample_B])) = false.
Proof.
  assert (H1 : Forall (fun r1 => label_ok (m_Name r1) = true) [sample_A])
    by (repeat constructor).
  assert (H2 : label_ok EmptyString = true) by reflexivity.
  assert (H3 : m_Name sample_backslash
               = EmptyString ++ String Json.backslash EmptyString) by reflexivity.
  refine (conj H1 (conj H2 (conj H3 _))).
  exact (X14_trailing_backslash_breaks_document [sample_A] [sample_B]
           sample_backslash EmptyString H1 H2 H3).
Defined.

(** ** A finished document stays as it is *)

(** X15: once a session is ended its document is safe from later sessions
    in other files.  After BeginSession, the records and EndSession (under
    the conditions of a well-formed session), any further run of calls in
    which no path given to a BeginSession names the file of the session,
    under its own or another spelling, leaves the file a JSON text with the
    same records. *)
Theorem X15_finished_document_persists
    (resolve : string -> string)
    (w : world) (name path : string) (rs : list ProfileResult) (later : list op) :
  sink_inv w ->
  (m_IsSessionActive (sink w) = false -> m_ProfileCount (sink w) = 0%Z) ->
  (resolve path ∉ denied w) ->
  Forall (fun r => label_ok (m_Name r) = true) rs ->
  (Z.of_nat (length rs) <= 2 ^ 31)%Z ->
  (forall name' path',
     In (OBegin name' path') later -> resolve path' <> resolve path) ->
  let ended := run_calls resolve (OBegin name path :: map OWrite rs ++ [OEnd]) w in
  file_text (run_calls resolve later ended) (resolve path) = document rs /\
  Json.array_elements (file_text (run_calls resolve later ended) (resolve path))
  = Some (length rs).
Proof.
  intros Hinv Hk0 Hp Hl Hn Hlater ended.
  set (file := resolve path) in *.
  assert (Ee : ended = EndSession (write_all rs (BeginSession name file w))).
  { unfold ended, run_calls. cbn [map resolve_op run_ops run_op]. fold file.
    rewrite map_app. cbn [map resolve_op].
    replace (map (resolve_op resolve) (map OWrite rs)) with (map OWrite rs).
    - unfold write_all. generalize (BeginSession name file w). intros w0.
      revert w0. induction (map OWrite rs) as [|o os IH]; intros w0;
        [reflexivity |].
      change ((o :: os) ++ [OEnd])%list with (o :: (os ++ [OEnd]))%list.
      cbn [run_ops]. apply IH.
    - clear. induction rs as [|r rs IH]; [reflexivity |].
      cbn [map resolve_op]. now rewrite <- IH. }
  destruct (begun_session w name file rs Hinv Hk0 Hp Hn) as (Hw & Ht & Ha).
  set (w2 := write_all rs (BeginSession name file w)) in *.
  assert (Hinv2 : sink_inv w2)
    by (apply sink_inv_write_all, sink_inv_BeginSession, Hinv).
  assert (He : file_text ended file = document rs).
  { rewrite Ee. rewrite (EndSession_writing w2 file Ha Hw).
    transitivity (file_text (append_file file footer_text w2) file).
    - now destruct w2 as [[n o k a] d l].
    - rewrite file_text_append, Ht. unfold document. now rewrite append_assoc. }
  assert (Hf : file_text (run_calls resolve later ended) file = document rs).
  { rewrite <- He. unfold file_text, run_calls. f_equal.
    apply run_ops_other_file; [| | now apply resolved_begin_paths].
    - rewrite Ee. now apply sink_inv_EndSession.
    - rewrite Ee, (EndSession_closed w2 Hinv2). discriminate. }
  split; [exact Hf |]. rewrite Hf. apply (document_valid rs Hl).
Qed.

Lemma X15_finished_document_persists_witness :
  sink_inv fresh_world /\
  (m_IsSessionActive (sink fresh_world) = false ->
   m_ProfileCount (sink fresh_world) = 0%Z) /\
  (sample_resolve "./results.json" ∉ denied fresh_world) /\
  Forall (fun r => label_ok (m_Name r) = true) [sample_A] /\
  (Z.of_nat (length [sample_A]) <= 2 ^ 31)%Z /\
  (forall name' path',
     In (OBegin name' path') [OBegin "U" "./second.json"; OWrite sample_B; OEnd] ->
     sample_resolve path' <> sample_resolve "./results.json") /\
  file_text
    (run_calls sample_resolve
       [OBegin "U" "./second.json"; OWrite sample_B; OEnd]
       (run_calls sample_resolve
          (OBegin "T" "./results.json" :: map OWrite [sample_A] ++ [OEnd])
          fresh_world))
    (sample_resolve "./results.json")
  = document [sample_A].
Proof.
  assert (H1 : sink_inv fresh_world) by apply sink_inv_init.
  assert (H2 : m_IsSessionActive (sink fresh_world) = false ->
               m_ProfileCount (sink fresh_world) = 0%Z) by reflexivity.
  assert (H3 : sample_resolve "./results.json" ∉ denied fresh_world)
    by apply not_elem_of_empty.
  assert (H4 : Forall (fun r => label_ok (m_Name r) = true) [sample_A])
    by (repeat constructor).
  assert (H5 : (Z.of_nat (length [sample_A]) <= 2 ^ 31)%Z)
    by (vm_compute; discriminate).
  assert (H6 : forall name' path',
            In (OBegin name' path')
               [OBegin "U" "./second.json"; OWrite sample_B; OEnd] ->
            sample_resolve path' <> sample_resolve "./results.json").
  { intros name' path' [E | [E | [E | []]]]; try discriminate E.
    injection E as _ <-. discriminate. }
  refine (conj H1 (conj H2 (conj H3 (conj H4 (conj H5 (conj H6 _)))))).
  exact (proj1 (X15_finished_document_persists sample_resolve fresh_world "T"
                  "./results.json" [sample_A]
                  [OBegin "U" "./second.json"; OWrite sample_B; OEnd]
                  H1 H2 H3 H4 H5 H6)).
Defined.
